(** * ESP32 Uptime Monitor: service registry, scheduler, checks, persistence

    A shallow embedding of [src/src/main.cpp].  The global array
    [services[MAX_SERVICES]] together with [serviceCount] is modelled as the
    list of its first [serviceCount] entries.  [unsigned long] and [int] are
    32 bits on the ESP32; both are kept as [Z] with the wrap-around written
    out where the code computes with them. *)

From Stdlib Require Import ZArith NArith List String Ascii Bool Lia.
From Stdlib Require Import Decimal DecimalString DecimalN.
Import ListNotations.
Open Scope string_scope.
Open Scope Z_scope.

(** ** Machine integers *)

Definition ULONG_MOD : Z := 2 ^ 32.

(** [unsigned long] arithmetic: results are taken modulo 2^32. *)
Definition ulong (z : Z) : Z := z mod ULONG_MOD.

Definition int_min : Z := - 2 ^ 31.
Definition int_max : Z := 2 ^ 31 - 1.
Definition in_int (z : Z) : bool := (int_min <=? z) && (z <=? int_max).

(** ** Arduino [String] conversions of numbers *)

(** [String(unsigned long)] and [String(long)]: decimal, with a leading
    minus sign for negative values. *)
Definition string_of_N (n : N) : string :=
  NilZero.string_of_uint (N.to_uint n).

Definition String_of_Z (z : Z) : string :=
  if z <? 0 then "-" ++ string_of_N (Z.to_N (- z)) else string_of_N (Z.to_N z).

(** The C string of an Arduino [String]: its bytes up to the first NUL.
    The C library functions the [String] methods call ([strstr],
    [strcmp]) see only this part. *)
Fixpoint c_str (s : string) : string :=
  match s with
  | EmptyString => EmptyString
  | String c s' => if Ascii.eqb c Ascii.zero then EmptyString else String c (c_str s')
  end.

(** [String::equals] with a C string argument, the [==] of a [String] and a literal:
    an empty receiver equals only an empty C string, otherwise [strcmp]. *)
Definition equals_cstr (s cstr : string) : bool :=
  if (String.length s =? 0)%nat then String.eqb (c_str cstr) ""
  else String.eqb (c_str s) (c_str cstr).

(** [String::equals(const String&)], the [==] of two [String]s: the same
    length and [strcmp] equal. *)
Definition String_eq (a b : string) : bool :=
  (String.length a =? String.length b)%nat && String.eqb (c_str a) (c_str b).

(** [strstr(hay, needle)], on NUL-free strings, as an offset from [i]: the
    first position at which the needle starts (an empty needle is found at
    once), [-1] when there is none. *)
Fixpoint strstr_from (hay needle : string) (i : Z) : Z :=
  if prefix needle hay then i
  else match hay with
       | EmptyString => -1
       | String _ hay' => strstr_from hay' needle (i + 1)
       end.

(** [String::indexOf(const String&)] of the ESP32 Arduino core, with
    [fromIndex = 0]: [-1] when the receiver is empty ([fromIndex >= len()]),
    otherwise [strstr(buffer(), s2.buffer())], which searches the C string
    of the receiver for the C string of the needle. *)
Definition indexOf (s needle : string) : Z :=
  if (String.length s =? 0)%nat then -1 else strstr_from (c_str s) (c_str needle) 0.

(** ** Data model *)

(** [enum ServiceType]: the enumerators and their underlying values.  A
    service's [type] is kept as the underlying [int], since [loadServices]
    casts an arbitrary stored integer to [ServiceType]. *)
Definition TYPE_HOME_ASSISTANT : Z := 0.
Definition TYPE_JELLYFIN : Z := 1.
Definition TYPE_HTTP_GET : Z := 2.
Definition TYPE_PING : Z := 3.

Record Service := mkService {
  id : string;
  name : string;
  type : Z;
  host : string;
  port : Z;
  path : string;
  expectedResponse : string;
  checkInterval : Z;
  isUp : bool;
  lastCheck : Z;
  lastUptime : Z;
  lastError : string;
  secondsSinceLastCheck : Z
}.

Definition MAX_SERVICES : nat := 20.

Definition set_lastError (e : string) (s : Service) : Service :=
  {| id := id s; name := name s; type := type s; host := host s;
     port := port s; path := path s; expectedResponse := expectedResponse s;
     checkInterval := checkInterval s; isUp := isUp s;
     lastCheck := lastCheck s; lastUptime := lastUptime s;
     lastError := e; secondsSinceLastCheck := secondsSinceLastCheck s |}.

Definition set_isUp (b : bool) (s : Service) : Service :=
  {| id := id s; name := name s; type := type s; host := host s;
     port := port s; path := path s; expectedResponse := expectedResponse s;
     checkInterval := checkInterval s; isUp := b;
     lastCheck := lastCheck s; lastUptime := lastUptime s;
     lastError := lastError s; secondsSinceLastCheck := secondsSinceLastCheck s |}.

Definition set_lastCheck (t : Z) (s : Service) : Service :=
  {| id := id s; name := name s; type := type s; host := host s;
     port := port s; path := path s; expectedResponse := expectedResponse s;
     checkInterval := checkInterval s; isUp := isUp s;
     lastCheck := t; lastUptime := lastUptime s;
     lastError := lastError s; secondsSinceLastCheck := secondsSinceLastCheck s |}.

Definition set_lastUptime (t : Z) (s : Service) : Service :=
  {| id := id s; name := name s; type := type s; host := host s;
     port := port s; path := path s; expectedResponse := expectedResponse s;
     checkInterval := checkInterval s; isUp := isUp s;
     lastCheck := lastCheck s; lastUptime := t;
     lastError := lastError s; secondsSinceLastCheck := secondsSinceLastCheck s |}.

(** ** The network, as seen by the checks *)

(** [HTTPClient::GET] on a URL returns the status code (a negative error
    code on transport failure) and [getString] the response body;
    [Ping.ping(host, 3)] returns whether the pings succeeded. *)
Record Net := mkNet {
  http_get : string -> Z * string;
  ping : string -> bool
}.

(** ** Check strategies *)

Section Checks.
Variable net : Net.

Definition base_url (s : Service) : string :=
  "http://" ++ host s ++ ":" ++ String_of_Z (port s).

(** [checkHomeAssistant] *)
Definition checkHomeAssistant (s : Service) : bool * Service :=
  let (httpCode, _) := http_get net (base_url s ++ "/api/") in
  if 0 <? httpCode then (true, s)
  else (false, set_lastError ("Connection failed: " ++ String_of_Z httpCode) s).

(** [checkJellyfin] *)
Definition checkJellyfin (s : Service) : bool * Service :=
  let (httpCode, _) := http_get net (base_url s ++ "/health") in
  if 0 <? httpCode then
    (if httpCode =? 200 then (true, s) else (false, s))
  else (false, set_lastError ("Connection failed: " ++ String_of_Z httpCode) s).

(** [checkHttpGet] *)
Definition checkHttpGet (s : Service) : bool * Service :=
  let (httpCode, payload) := http_get net (base_url s ++ path s) in
  if 0 <? httpCode then
    if httpCode =? 200 then
      if equals_cstr (expectedResponse s) "*" then (true, s)
      else
        let up := 0 <=? indexOf payload (expectedResponse s) in
        if up then (true, s) else (false, set_lastError "Response mismatch" s)
    else (false, set_lastError ("HTTP " ++ String_of_Z httpCode) s)
  else (false, set_lastError ("Connection failed: " ++ String_of_Z httpCode) s).

(** [checkPing] *)
Definition checkPing (s : Service) : bool * Service :=
  let success := ping net (host s) in
  if success then (true, s) else (false, set_lastError "Ping timeout" s).

(** ** The scheduler: [checkServices] *)

(** The guard of the loop body: a record is skipped when
    [currentTime - lastCheck < checkInterval * 1000] in [unsigned long]
    arithmetic (the [int] product is converted to [unsigned long]). *)
Definition due (currentTime : Z) (s : Service) : bool :=
  negb (ulong (currentTime - lastCheck s) <? ulong (checkInterval s * 1000)).

(** The body of the loop for a due record: stamp [lastCheck], dispatch on
    the type (no case matches an out-of-range value, [isUp] is kept), then
    record the uptime and clear the error on success. *)
Definition run_check (currentTime : Z) (s0 : Service) : Service :=
  let s1 := set_lastCheck currentTime s0 in
  let s2 :=
    if type s1 =? TYPE_HOME_ASSISTANT then
      let (b, s') := checkHomeAssistant s1 in set_isUp b s'
    else if type s1 =? TYPE_JELLYFIN then
      let (b, s') := checkJellyfin s1 in set_isUp b s'
    else if type s1 =? TYPE_HTTP_GET then
      let (b, s') := checkHttpGet s1 in set_isUp b s'
    else if type s1 =? TYPE_PING then
      let (b, s') := checkPing s1 in set_isUp b s'
    else s1 in
  if isUp s2 then set_lastError "" (set_lastUptime currentTime s2) else s2.

Definition check_one (currentTime : Z) (s : Service) : Service :=
  if due currentTime s then run_check currentTime s else s.

(** [checkServices]: one pass over the registry; each iteration only reads
    and writes [services[i]]. *)
Fixpoint checkServices (currentTime : Z) (rs : list Service) : list Service :=
  match rs with
  | [] => []
  | s :: rs' => check_one currentTime s :: checkServices currentTime rs'
  end.

End Checks.

(** ** JSON documents *)

#[local] Set Warnings "-register-all".

(** The values an ArduinoJson [JsonDocument] holds in this program. *)
Inductive json :=
| JNull
| JBool (b : bool)
| JInt (z : Z)
| JStr (s : string)
| JArr (l : list json)
| JObj (l : list (string * json)).

(** [v[key]]: the member of an object, [null] when absent or when [v] is
    not an object. *)
Fixpoint assoc_member (l : list (string * json)) (k : string) : json :=
  match l with
  | [] => JNull
  | (k', v) :: l' => if String.eqb k k' then v else assoc_member l' k
  end.

Definition member (v : json) (k : string) : json :=
  match v with
  | JObj l => assoc_member l k
  | _ => JNull
  end.

(** *** [serializeJson], compact form *)

Definition ch (n : nat) : ascii := ascii_of_nat n.

(** [EscapeSequence::escapeChar]: the characters the serializer writes as a
    backslash escape (the solidus is not escaped). *)
Definition escape_char (c : ascii) : option ascii :=
  let n := nat_of_ascii c in
  if (n =? 34)%nat then Some (ch 34)
  else if (n =? 92)%nat then Some (ch 92)
  else if (n =? 8)%nat then Some "b"%char
  else if (n =? 12)%nat then Some "f"%char
  else if (n =? 10)%nat then Some "n"%char
  else if (n =? 13)%nat then Some "r"%char
  else if (n =? 9)%nat then Some "t"%char
  else None.

(** [TextFormatter::writeChar] over a string: escapes, [\u0000] for a NUL
    byte, every other byte as it is. *)
Fixpoint write_string_chars (s : string) : string :=
  match s with
  | EmptyString => EmptyString
  | String c s' =>
      match escape_char c with
      | Some e => String (ch 92) (String e (write_string_chars s'))
      | None =>
          if Ascii.eqb c Ascii.zero then "\u0000" ++ write_string_chars s'
          else String c (write_string_chars s')
      end
  end.

Definition write_string (s : string) : string :=
  String (ch 34) (write_string_chars s ++ String (ch 34) EmptyString).

Fixpoint serialize (v : json) : string :=
  match v with
  | JNull => "null"
  | JBool b => if b then "true" else "false"
  | JInt z => String_of_Z z
  | JStr s => write_string s
  | JArr l =>
      "[" ++ (fix elems (l : list json) : string :=
                match l with
                | [] => ""
                | [x] => serialize x
                | x :: l' => serialize x ++ "," ++ elems l'
                end) l ++ "]"
  | JObj l =>
      "{" ++ (fix members (l : list (string * json)) : string :=
                match l with
                | [] => ""
                | [(k, x)] => write_string k ++ ":" ++ serialize x
                | (k, x) :: l' => write_string k ++ ":" ++ serialize x ++ "," ++ members l'
                end) l ++ "}"
  end.

(** [v.as<String>()]: the text of a string value; any other value
    ([null], a boolean, a number, an array or an object) is converted by
    serializing it, as [convertFromJson] does. *)
Definition as_String (v : json) : string :=
  match v with
  | JStr s => s
  | _ => serialize v
  end.

(** *** [parseNumber] on a C string *)

Definition is_digit (c : ascii) : bool :=
  let n := nat_of_ascii c in (48 <=? n)%nat && (n <=? 57)%nat.

(** The leading decimal digits of a string, and the rest. *)
Fixpoint span_digits (s : string) : string * string :=
  match s with
  | String c s' =>
      if is_digit c then let (d, r) := span_digits s' in (String c d, r) else ("", s)
  | EmptyString => ("", "")
  end.

Definition digits_value (d : string) : Z :=
  fold_left (fun acc c => 10 * acc + (Z.of_nat (nat_of_ascii c) - 48)) (list_ascii_of_string d) 0.

(** The outcome of [parseNumber]: no number, an integer, or a floating
    point value [m * 10^e] (kept exact). *)
Inductive Number := NumInvalid | NumInt (z : Z) | NumFloat (m e : Z).

(** [parseNumber]: an optional sign, then the integer digits.  When the
    string ends there the result is an integer; otherwise an optional
    fraction and an optional exponent ([e]/[E], optional sign, digits) make
    a floating point value, and any other character left over makes the
    whole string invalid.  A string must start (after the sign) with a
    digit or a dot.  The model keeps the decimal value exact where the
    library computes a [double]. *)
Definition parse_number (s0 : string) : Number :=
  let '(neg, s1) :=
    match s0 with
    | String c r =>
        if Ascii.eqb c "-" then (true, r) else if Ascii.eqb c "+" then (false, r) else (false, s0)
    | EmptyString => (false, s0)
    end in
  let sgn := if neg then -1 else 1 in
  match s1 with
  | String c _ =>
      if negb (is_digit c || Ascii.eqb c ".") then NumInvalid else
      let (ip, s2) := span_digits s1 in
      match s2 with
      | EmptyString => NumInt (sgn * digits_value ip)
      | _ =>
          let '(fp, s3) :=
            match s2 with
            | String c2 r2 => if Ascii.eqb c2 "." then span_digits r2 else ("", s2)
            | EmptyString => ("", s2)
            end in
          let '(ex, s4) :=
            match s3 with
            | String c3 r3 =>
                if Ascii.eqb c3 "e" || Ascii.eqb c3 "E" then
                  let '(eneg, r4) :=
                    match r3 with
                    | String c4 r5 =>
                        if Ascii.eqb c4 "-" then (true, r5)
                        else if Ascii.eqb c4 "+" then (false, r5) else (false, r3)
                    | EmptyString => (false, r3)
                    end in
                  let (ed, r6) := span_digits r4 in
                  ((if eneg then -1 else 1) * digits_value ed, r6)
                else (0, s3)
            | EmptyString => (0, s3)
            end in
          match s4 with
          | EmptyString =>
              NumFloat (sgn * digits_value (ip ++ fp)) (ex - Z.of_nat (String.length fp))
          | _ => NumInvalid
          end
      end
  | EmptyString => NumInvalid
  end.

(** [convertNumber<int>]: the value when it lies in the range of [int]
    ([static_cast] truncating a floating point value), [0] otherwise. *)
Definition number_to_int (n : Number) : Z :=
  match n with
  | NumInvalid => 0
  | NumInt z => if in_int z then z else 0
  | NumFloat m e =>
      if 0 <=? e then (let v := m * 10 ^ e in if in_int v then v else 0)
      else
        let d := 10 ^ (- e) in
        if (int_min * d <=? m) && (m <=? int_max * d) then Z.quot m d else 0
  end.

(** [v.as<int>()] and the implicit conversion to [int]: an integer that
    fits, [0] or [1] for a boolean, the number a string holds
    ([parseNumber] on its C string), [0] otherwise. *)
Definition as_int (v : json) : Z :=
  match v with
  | JInt z => if in_int z then z else 0
  | JBool b => if b then 1 else 0
  | JStr s => number_to_int (parse_number (c_str s))
  | _ => 0
  end.

(** [v | d] with an [int] default: the value when it is an [int]. *)
Definition or_int (v : json) (d : Z) : Z :=
  match v with
  | JInt z => if in_int z then z else d
  | _ => d
  end.

(** [v | d] with a string default: the value when it is a string. *)
Definition or_str (v : json) (d : string) : string :=
  match v with
  | JStr s => s
  | _ => d
  end.

(** [getServiceTypeString] *)
Definition getServiceTypeString (t : Z) : string :=
  if t =? TYPE_HOME_ASSISTANT then "home_assistant"
  else if t =? TYPE_JELLYFIN then "jellyfin"
  else if t =? TYPE_HTTP_GET then "http_get"
  else if t =? TYPE_PING then "ping"
  else "unknown".

(** The chain of comparisons [typeStr == "..."] in the create handler. *)
Definition parseServiceType (typeStr : string) : option Z :=
  if equals_cstr typeStr "home_assistant" then Some TYPE_HOME_ASSISTANT
  else if equals_cstr typeStr "jellyfin" then Some TYPE_JELLYFIN
  else if equals_cstr typeStr "http_get" then Some TYPE_HTTP_GET
  else if equals_cstr typeStr "ping" then Some TYPE_PING
  else None.

(** One entry of the [services] array written by [saveServices]. *)
Definition service_to_json (s : Service) : json :=
  JObj [("id", JStr (id s));
        ("name", JStr (name s));
        ("type", JInt (type s));
        ("host", JStr (host s));
        ("port", JInt (port s));
        ("path", JStr (path s));
        ("expectedResponse", JStr (expectedResponse s));
        ("checkInterval", JInt (checkInterval s))].

(** The document [saveServices] builds. *)
Definition services_doc (rs : list Service) : json :=
  JObj [("services", JArr (map service_to_json rs))].

(** The record [loadServices] fills from one array element. *)
Definition service_of_json (obj : json) : Service :=
  {| id := as_String (member obj "id");
     name := as_String (member obj "name");
     type := as_int (member obj "type");
     host := as_String (member obj "host");
     port := as_int (member obj "port");
     path := as_String (member obj "path");
     expectedResponse := as_String (member obj "expectedResponse");
     checkInterval := as_int (member obj "checkInterval");
     isUp := false;
     lastCheck := 0;
     lastUptime := 0;
     lastError := "";
     secondsSinceLastCheck := -1 |}.

(** Iterating a [JsonArray]: a value that is not an array iterates as an
    empty one. *)
Definition array_elems (v : json) : list json :=
  match v with
  | JArr l => l
  | _ => []
  end.

(** The loop of [loadServices], [serviceCount] starting at [count]. *)
Fixpoint load_loop (count : nat) (l : list json) : list Service :=
  match l with
  | [] => []
  | obj :: l' =>
      if (MAX_SERVICES <=? count)%nat then []
      else service_of_json obj :: load_loop (S count) l'
  end.

(** ** Ids and responses *)

(** [generateServiceId]: [String(millis()) + String(random(1000, 9999))];
    [millis] and the random draw are inputs of the model. *)
Definition generateServiceId (millis rnd : Z) : string :=
  string_of_N (Z.to_N millis) ++ String_of_Z rnd.

Definition dq : string := String (ascii_of_nat 34) EmptyString.

Definition error_body (msg : string) : string :=
  "{" ++ dq ++ "error" ++ dq ++ ":" ++ dq ++ msg ++ dq ++ "}".

Definition success_body : string :=
  "{" ++ dq ++ "success" ++ dq ++ ":true}".

(** [serializeJson] of [{success: true, id: ...}] (ids are digit strings). *)
Definition created_body (newId : string) : string :=
  "{" ++ dq ++ "success" ++ dq ++ ":true," ++ dq ++ "id" ++ dq ++ ":"
      ++ dq ++ newId ++ dq ++ "}".

Record Response := mkResponse { status : Z; body : string }.

(** [path.substring(path.lastIndexOf('/') + 1)] *)
Fixpoint has_slash (s : string) : bool :=
  match s with
  | EmptyString => false
  | String c s' => Ascii.eqb c "/" || has_slash s'
  end.

Fixpoint last_segment (s : string) : string :=
  match s with
  | EmptyString => EmptyString
  | String c s' =>
      if has_slash s' then last_segment s'
      else if Ascii.eqb c "/" then s' else s
  end.

(** Removing the first record with a given id, shifting the rest down. *)
Fixpoint remove_first (sid : string) (rs : list Service) : list Service :=
  match rs with
  | [] => []
  | s :: rs' => if String_eq (id s) sid then rs' else s :: remove_first sid rs'
  end.

(** ** The device state and the request handlers *)

Section Device.

(** The byte-level file store and the JSON codec of ArduinoJson, used for
    both [/services.json] and request bodies. *)
Variable Bytes : Type.
Variable serializeJson : json -> Bytes.
Variable deserializeJson : Bytes -> option json.

(** The registry, the content of [/services.json] ([None] when absent),
    whether [LittleFS.open(..., "w")] succeeds, and a count of the writes
    made to the file. *)
Record World := mkWorld {
  reg : list Service;
  file : option Bytes;
  fs_writable : bool;
  writes : nat
}.

Definition with_reg (rs : list Service) (w : World) : World :=
  {| reg := rs; file := file w; fs_writable := fs_writable w; writes := writes w |}.

(** [saveServices] *)
Definition saveServices (w : World) : World :=
  if fs_writable w then
    {| reg := reg w; file := Some (serializeJson (services_doc (reg w)));
       fs_writable := fs_writable w; writes := S (writes w) |}
  else w.

(** [loadServices]: nothing changes when the file is missing or does not
    parse; otherwise the registry is rebuilt from [doc["services"]]. *)
Definition loadServices (w : World) : World :=
  match file w with
  | None => w
  | Some bytes =>
      match deserializeJson bytes with
      | None => w
      | Some doc => with_reg (load_loop 0 (array_elems (member doc "services"))) w
      end
  end.

(** The record the create handler builds from a parsed body. *)
Definition new_service (newId : string) (t : Z) (doc : json) : Service :=
  {| id := newId;
     name := as_String (member doc "name");
     type := t;
     host := as_String (member doc "host");
     port := or_int (member doc "port") 80;
     path := or_str (member doc "path") "/";
     expectedResponse := or_str (member doc "expectedResponse") "*";
     checkInterval := or_int (member doc "checkInterval") 60;
     isUp := false;
     lastCheck := 0;
     lastUptime := 0;
     lastError := "";
     secondsSinceLastCheck := -1 |}.

(** The body handler of [POST /api/services]; [millis] and [rnd] are the
    values [millis()] and [random(1000, 9999)] return during the call. *)
Definition createService (millis rnd : Z) (data : Bytes) (w : World)
  : Response * World :=
  if (MAX_SERVICES <=? List.length (reg w))%nat then
    (mkResponse 400 (error_body "Maximum services reached"), w)
  else
    match deserializeJson data with
    | None => (mkResponse 400 (error_body "Invalid JSON"), w)
    | Some doc =>
        let newId := generateServiceId millis rnd in
        match parseServiceType (as_String (member doc "type")) with
        | None => (mkResponse 400 (error_body "Invalid service type"), w)
        | Some t =>
            let w' := saveServices (with_reg (reg w ++ [new_service newId t doc]) w) in
            (mkResponse 200 (created_body newId), w')
        end
    end.

(** The handler of [DELETE /api/services/*]. *)
Definition deleteService (url : string) (w : World) : Response * World :=
  let serviceId := last_segment url in
  if existsb (fun s => String_eq (id s) serviceId) (reg w) then
    (mkResponse 200 success_body,
     saveServices (with_reg (remove_first serviceId (reg w)) w))
  else (mkResponse 404 (error_body "Service not found"), w).

(** A scheduler tick on the device state. *)
Definition tick (net : Net) (currentTime : Z) (w : World) : World :=
  with_reg (checkServices net currentTime (reg w)) w.

(** The operations that change the registry. *)
Inductive Op :=
| OpCreate (millis rnd : Z) (data : Bytes)
| OpDelete (url : string)
| OpLoad
| OpTick (net : Net) (currentTime : Z).

Definition run_op (w : World) (o : Op) : World :=
  match o with
  | OpCreate millis rnd data => snd (createService millis rnd data w)
  | OpDelete url => snd (deleteService url w)
  | OpLoad => loadServices w
  | OpTick net t => tick net t w
  end.

Definition run_ops (w : World) (os : list Op) : World := fold_left run_op os w.

End Device.

Arguments mkWorld {Bytes} _ _ _ _.
Arguments reg {Bytes} _.
Arguments file {Bytes} _.
Arguments fs_writable {Bytes} _.
Arguments writes {Bytes} _.

(** ** [deserializeJson] *)

(** ArduinoJson's [JsonDeserializer] over the bytes of a body or a file:
    a NUL byte, like the end of the input, ends the input; comments, NaN
    and Infinity are disabled (the library's defaults); the nesting limit
    is 10; the memory pool is taken to be large enough.  [json] has no
    floating point numbers: a number that [parseNumber] reads as a
    [double] has no [json] value, and the model answers [None] for a
    document holding one, so it is exact on documents without them. *)

Definition is_space (c : ascii) : bool :=
  let n := nat_of_ascii c in (n =? 32)%nat || (n =? 9)%nat || (n =? 13)%nat || (n =? 10)%nat.

(** [skipSpacesAndComments]: the input after its leading whitespace;
    [None] (EmptyInput or IncompleteInput) when nothing is left. *)
Fixpoint skip_spaces (s : string) : option string :=
  match s with
  | EmptyString => None
  | String c s' => if is_space c then skip_spaces s' else Some s
  end.

(** [eat(c)]: the rest of the input when it starts with [c]. *)
Definition eat (c : ascii) (s : string) : option string :=
  match s with
  | String c' s' => if Ascii.eqb c c' then Some s' else None
  | EmptyString => None
  end.

(** [EscapeSequence::unescapeChar], the table [//""\\b\bf\fn\nr\rt\t]. *)
Definition unescapeChar (c : ascii) : option ascii :=
  let n := nat_of_ascii c in
  if (n =? 47)%nat then Some (ch 47)
  else if (n =? 34)%nat then Some (ch 34)
  else if (n =? 92)%nat then Some (ch 92)
  else if Ascii.eqb c "b" then Some (ch 8)
  else if Ascii.eqb c "f" then Some (ch 12)
  else if Ascii.eqb c "n" then Some (ch 10)
  else if Ascii.eqb c "r" then Some (ch 13)
  else if Ascii.eqb c "t" then Some (ch 9)
  else None.

(** [decodeHex], with its [uint8_t] result: a value above 15 is not a hex
    digit. *)
Definition decodeHex (c : ascii) : Z :=
  let n := Z.of_nat (nat_of_ascii c) in
  if n <? 65 then (n - 48) mod 256
  else (Z.land n (Z.lnot 32) - 65 + 10) mod 256.

(** [Utf16::Codepoint::append]: the new state [codepoint_] (a
    [uint32_t]) and whether a code point is complete. *)
Definition utf16_append (cp cu : Z) : Z * bool :=
  if Z.land cu 64512 =? 55296 then (Z.land cu 1023, false)
  else if Z.land cu 64512 =? 56320 then
    ((65536 + Z.lor (Z.shiftl cp 10) (Z.land cu 1023)) mod 2 ^ 32, true)
  else (cu, true).

Definition byte_of_Z (z : Z) : ascii := ascii_of_N (Z.to_N (z mod 256)).

(** [Utf8::encodeCodepoint], the bytes in the order they are appended. *)
Definition encodeCodepoint (cp : Z) : list ascii :=
  if cp <? 128 then [byte_of_Z cp] else
  let b1 := Z.land (Z.lor cp 128) 191 in
  let c16 := Z.land (Z.shiftr cp 6) 65535 in
  if c16 <? 32 then [byte_of_Z (Z.lor c16 192); byte_of_Z b1] else
  let b2 := Z.land (Z.lor c16 128) 191 in
  let c16' := Z.shiftr c16 6 in
  if c16' <? 16 then [byte_of_Z (Z.lor c16' 224); byte_of_Z b2; byte_of_Z b1] else
  let b3 := Z.land (Z.lor c16' 128) 191 in
  let c16'' := Z.shiftr c16' 6 in
  [byte_of_Z (Z.lor c16'' 240); byte_of_Z b3; byte_of_Z b2; byte_of_Z b1].

(** Where [parseQuotedString] is inside a string: plain text, after a
    backslash, or reading the [k] hex digits left of a [\u] escape. *)
Inductive str_mode := InText | InEscape | InHex (k : nat) (acc : Z).

(** [parseQuotedString] after the opening quote [stop]: the decoded bytes
    and the input after the closing quote; [cp] is the [Utf16::Codepoint]
    state. *)
Fixpoint parse_string_chars (stop : ascii) (m : str_mode) (cp : Z) (s : string)
    : option (list ascii * string) :=
  match s with
  | EmptyString => None
  | String c s' =>
      match m with
      | InText =>
          if Ascii.eqb c stop then Some ([], s')
          else if Ascii.eqb c (ch 92) then parse_string_chars stop InEscape cp s'
          else option_map (fun '(t, r) => (c :: t, r)) (parse_string_chars stop InText cp s')
      | InEscape =>
          if Ascii.eqb c "u" then parse_string_chars stop (InHex 4 0) cp s'
          else match unescapeChar c with
               | Some c' =>
                   option_map (fun '(t, r) => (c' :: t, r)) (parse_string_chars stop InText cp s')
               | None => None
               end
      | InHex k acc =>
          let v := decodeHex c in
          if 15 <? v then None else
          let acc' := Z.lor (Z.shiftl acc 4) v in
          match k with
          | S (S k') => parse_string_chars stop (InHex (S k') acc') cp s'
          | _ =>
              let (cp', done) := utf16_append cp acc' in
              let out := if done then encodeCodepoint cp' else [] in
              option_map (fun '(t, r) => (List.app out t, r))
                (parse_string_chars stop InText cp' s')
          end
      end
  end.

Definition is_quote (c : ascii) : bool := Ascii.eqb c (ch 34) || Ascii.eqb c (ch 39).

(** [parseQuotedString] at the opening quote. *)
Definition parse_quoted (s : string) : option (string * string) :=
  match s with
  | String q s' =>
      if is_quote q then
        option_map (fun '(t, r) => (string_of_list_ascii t, r)) (parse_string_chars q InText 0 s')
      else None
  | EmptyString => None
  end.

(** [canBeInNonQuotedString]: [0-9], [_] to [z], [A-Z]. *)
Definition canBeInNonQuotedString (c : ascii) : bool :=
  let n := nat_of_ascii c in
  ((48 <=? n) && (n <=? 57))%nat || ((95 <=? n) && (n <=? 122))%nat ||
  ((65 <=? n) && (n <=? 90))%nat.

Fixpoint span_nonquoted (s : string) : string * string :=
  match s with
  | String c s' =>
      if canBeInNonQuotedString c then let (a, r) := span_nonquoted s' in (String c a, r)
      else ("", s)
  | EmptyString => ("", "")
  end.

(** [parseKey]: a quoted string, or a non-empty run of characters that can
    be in a non-quoted string. *)
Definition parse_key (s : string) : option (string * string) :=
  match s with
  | String c _ =>
      if is_quote c then parse_quoted s
      else match span_nonquoted s with
           | (EmptyString, _) => None
           | (k, r) => Some (k, r)
           end
  | EmptyString => None
  end.

(** [skipKeyword]: the input after the keyword [kw]. *)
Fixpoint skip_keyword (kw s : string) : option string :=
  match kw with
  | EmptyString => Some s
  | String k kw' =>
      match s with
      | String c s' => if Ascii.eqb k c then skip_keyword kw' s' else None
      | EmptyString => None
      end
  end.

(** [canBeInNumber] (NaN and Infinity disabled). *)
Definition canBeInNumber (c : ascii) : bool :=
  is_digit c || Ascii.eqb c "+" || Ascii.eqb c "-" || Ascii.eqb c "." ||
  Ascii.eqb c "e" || Ascii.eqb c "E".

(** The loop of [parseNumericValue]: at most [n] characters that can be in
    a number. *)
Fixpoint take_number (n : nat) (s : string) : string * string :=
  match n, s with
  | O, _ => ("", s)
  | S n', String c s' =>
      if canBeInNumber c then let (a, r) := take_number n' s' in (String c a, r)
      else ("", s)
  | S _, EmptyString => ("", "")
  end.

(** The integers [parseNumber] stores as integers: [int64_t] for a
    negative value, [uint64_t] otherwise; a larger one becomes a
    [double]. *)
Definition json_of_number (n : Number) : option json :=
  match n with
  | NumInt z => if (- 2 ^ 63 <=? z) && (z <? 2 ^ 64) then Some (JInt z) else None
  | _ => None
  end.

(** Setting a member while parsing an object: the value of a key already
    present is replaced where it is, a new key is added at the end. *)
Fixpoint set_member (l : list (string * json)) (k : string) (v : json)
    : list (string * json) :=
  match l with
  | [] => [(k, v)]
  | (k', v') :: l' => if String.eqb k k' then (k', v) :: l' else (k', v') :: set_member l' k v
  end.

(** [parseVariant], [parseArray] and [parseObject]; [limit] is the nesting
    limit left, and [fuel] bounds the recursion (every call but the first
    of a container consumes input). *)
Fixpoint parse_value (fuel limit : nat) (s : string) {struct fuel} : option (json * string) :=
  match fuel with
  | O => None
  | S fuel' =>
      match skip_spaces s with
      | None => None
      | Some EmptyString => None
      | Some (String c r as s1) =>
          if is_quote c then option_map (fun '(t, r') => (JStr t, r')) (parse_quoted s1)
          else if Ascii.eqb c "[" then
            match limit with
            | O => None
            | S l' =>
                match skip_spaces r with
                | None => None
                | Some r1 =>
                    match eat "]" r1 with
                    | Some r2 => Some (JArr [], r2)
                    | None => parse_elements fuel' l' r1 []
                    end
                end
            end
          else if Ascii.eqb c "{" then
            match limit with
            | O => None
            | S l' =>
                match skip_spaces r with
                | None => None
                | Some r1 =>
                    match eat "}" r1 with
                    | Some r2 => Some (JObj [], r2)
                    | None => parse_members fuel' l' r1 []
                    end
                end
            end
          else if Ascii.eqb c "t" then option_map (fun r' => (JBool true, r')) (skip_keyword "true" s1)
          else if Ascii.eqb c "f" then option_map (fun r' => (JBool false, r')) (skip_keyword "false" s1)
          else if Ascii.eqb c "n" then option_map (fun r' => (JNull, r')) (skip_keyword "null" s1)
          else
            let (num, r') := take_number 63 s1 in
            option_map (fun v => (v, r')) (json_of_number (parse_number num))
      end
  end
with parse_elements (fuel limit : nat) (s : string) (acc : list json) {struct fuel}
    : option (json * string) :=
  match fuel with
  | O => None
  | S fuel' =>
      match parse_value fuel' limit s with
      | None => None
      | Some (v, r) =>
          match skip_spaces r with
          | None => None
          | Some r1 =>
              match eat "]" r1 with
              | Some r2 => Some (JArr (List.rev (v :: acc)), r2)
              | None =>
                  match eat "," r1 with
                  | Some r2 => parse_elements fuel' limit r2 (v :: acc)
                  | None => None
                  end
              end
          end
      end
  end
with parse_members (fuel limit : nat) (s : string) (acc : list (string * json)) {struct fuel}
    : option (json * string) :=
  match fuel with
  | O => None
  | S fuel' =>
      match parse_key s with
      | None => None
      | Some (k, r) =>
          match option_map (eat ":") (skip_spaces r) with
          | Some (Some r1) =>
              match parse_value fuel' limit r1 with
              | None => None
              | Some (v, r2) =>
                  let acc' := set_member acc k v in
                  match skip_spaces r2 with
                  | None => None
                  | Some r3 =>
                      match eat "}" r3 with
                      | Some r4 => Some (JObj acc', r4)
                      | None =>
                          match eat "," r3 with
                          | Some r4 =>
                              match skip_spaces r4 with
                              | Some r5 => parse_members fuel' limit r5 acc'
                              | None => None
                              end
                          | None => None
                          end
                      end
                  end
              end
          | _ => None
          end
      end
  end.

Definition is_number (v : json) : bool :=
  match v with
  | JInt _ => true
  | _ => false
  end.

(** [JsonDeserializer::parse] with the nesting limit 10: the first value
    of the input (up to a NUL byte) and the input left after it.  A number
    at the top level must end the input. *)
Definition deserialize_prefix (input : string) : option (json * string) :=
  let s := c_str input in
  match parse_value (3 * String.length s + 3) 10 s with
  | Some (v, r) => if is_number v && negb (String.eqb r "") then None else Some (v, r)
  | None => None
  end.

(** [deserializeJson(doc, data, len)]: the document, or [None] for an
    error; what follows the first value is not read. *)
Definition deserializeJson (input : string) : option json :=
  option_map fst (deserialize_prefix input).

(** ** The listing handler: [GET /api/services] *)

Definition set_secondsSinceLastCheck (v : Z) (s : Service) : Service :=
  {| id := id s; name := name s; type := type s; host := host s;
     port := port s; path := path s; expectedResponse := expectedResponse s;
     checkInterval := checkInterval s; isUp := isUp s;
     lastCheck := lastCheck s; lastUptime := lastUptime s;
     lastError := lastError s; secondsSinceLastCheck := v |}.

(** The value the handler stores in [secondsSinceLastCheck]: the
    [unsigned long] quotient [(currentTime - lastCheck) / 1000] when
    [lastCheck > 0], [-1] otherwise. *)
Definition list_seconds (currentTime : Z) (s : Service) : Z :=
  if 0 <? lastCheck s then ulong (currentTime - lastCheck s) / 1000 else -1.

Definition list_refresh (currentTime : Z) (s : Service) : Service :=
  set_secondsSinceLastCheck (list_seconds currentTime s) s.

(** The object the handler adds to the array for one record. *)
Definition service_entry (s : Service) : json :=
  JObj [("id", JStr (id s));
        ("name", JStr (name s));
        ("type", JStr (getServiceTypeString (type s)));
        ("host", JStr (host s));
        ("port", JInt (port s));
        ("path", JStr (path s));
        ("expectedResponse", JStr (expectedResponse s));
        ("checkInterval", JInt (checkInterval s));
        ("isUp", JBool (isUp s));
        ("secondsSinceLastCheck", JInt (secondsSinceLastCheck s));
        ("lastError", JStr (lastError s))].

(** The handler: it writes [secondsSinceLastCheck] into every record of the
    registry, then lists the updated records. *)
Definition getServices (currentTime : Z) (rs : list Service) : list Service * json :=
  let rs' := List.map (list_refresh currentTime) rs in
  (rs', JObj [("services", JArr (List.map service_entry rs'))]).

(** The verdict of the strategy [run_check] dispatches to, [None] when the
    type matches no case of the [switch]. *)
Definition verdict (net : Net) (s : Service) : option bool :=
  if type s =? TYPE_HOME_ASSISTANT then Some (fst (checkHomeAssistant net s))
  else if type s =? TYPE_JELLYFIN then Some (fst (checkJellyfin net s))
  else if type s =? TYPE_HTTP_GET then Some (fst (checkHttpGet net s))
  else if type s =? TYPE_PING then Some (fst (checkPing net s))
  else None.

(** * Properties *)

(** ** Sample data *)

Definition sample_ping : Service :=
  mkService "50001234" "nas" TYPE_PING "192.168.1.10" 80 "/" "*" 60
            false 0 0 "" (-1).

Definition sample_http (expected : string) : Service :=
  mkService "70004321" "web" TYPE_HTTP_GET "192.168.1.20" 8080 "/status"
            expected 10 false 0 0 "" (-1).

Definition sample_jellyfin : Service :=
  mkService "90005555" "jellyfin" TYPE_JELLYFIN "192.168.1.30" 8096 "/" "*" 60
            false 0 0 "" (-1).

(** A network where every HTTP request gets [code] with [payload] and every
    ping succeeds. *)
Definition const_net (code : Z) (payload : string) : Net :=
  mkNet (fun _ => (code, payload)) (fun _ => true).

Example base_url_sample :
  base_url (sample_http "ok") = "http://192.168.1.20:8080".
Proof. reflexivity. Qed.

Example String_of_Z_negative : String_of_Z (-11) = "-11".
Proof. reflexivity. Qed.

Example getServiceTypeString_ping : getServiceTypeString TYPE_PING = "ping".
Proof. reflexivity. Qed.

(** ** Scheduler *)

Ltac split_ifs :=
  repeat match goal with
         | |- context [if ?c then _ else _] => destruct c
         | |- context [let (_, _) := ?p in _] => destruct p
         end.

Lemma nth_error_checkServices (net : Net) (now : Z) (rs : list Service) (i : nat) :
  nth_error (checkServices net now rs) i = option_map (check_one net now) (nth_error rs i).
Proof.
  revert i; induction rs as [| s rs IH]; intros [| i]; simpl; auto.
Qed.

Lemma length_checkServices (net : Net) (now : Z) (rs : list Service) :
  List.length (checkServices net now rs) = List.length rs.
Proof. induction rs; simpl; auto. Qed.

(** Each strategy returns the record it was given, possibly with a new
    [lastError]. *)
Definition only_lastError (s s' : Service) : Prop :=
  s' = s \/ exists e, s' = set_lastError e s.

Lemma checkHomeAssistant_only_lastError (net : Net) (s : Service) :
  only_lastError s (snd (checkHomeAssistant net s)).
Proof.
  unfold checkHomeAssistant, only_lastError; split_ifs; simpl; eauto.
Qed.

Lemma checkJellyfin_only_lastError (net : Net) (s : Service) :
  only_lastError s (snd (checkJellyfin net s)).
Proof.
  unfold checkJellyfin, only_lastError; split_ifs; simpl; eauto.
Qed.

Lemma checkHttpGet_only_lastError (net : Net) (s : Service) :
  only_lastError s (snd (checkHttpGet net s)).
Proof.
  unfold checkHttpGet, only_lastError; split_ifs; simpl; eauto.
Qed.

Lemma checkPing_only_lastError (net : Net) (s : Service) :
  only_lastError s (snd (checkPing net s)).
Proof.
  unfold checkPing, only_lastError; split_ifs; simpl; eauto.
Qed.

Lemma only_lastError_lastCheck (s s' : Service) :
  only_lastError s s' -> lastCheck s' = lastCheck s.
Proof. intros [-> | [e ->]]; reflexivity. Qed.

Lemma only_lastError_dispatch (f : Service -> bool * Service) (x : Service) :
  only_lastError x (snd (f x)) ->
  lastCheck (let (b, s') := f x in set_isUp b s') = lastCheck x /\
  isUp (let (b, s') := f x in set_isUp b s') = fst (f x).
Proof.
  destruct (f x) as [b s']; simpl; intros H.
  apply only_lastError_lastCheck in H; auto.
Qed.

Ltac dispatch_lastCheck :=
  match goal with
  | |- context [let (_, _) := checkHomeAssistant ?n ?x in _] =>
      destruct (only_lastError_dispatch _ _ (checkHomeAssistant_only_lastError n x))
  | |- context [let (_, _) := checkJellyfin ?n ?x in _] =>
      destruct (only_lastError_dispatch _ _ (checkJellyfin_only_lastError n x))
  | |- context [let (_, _) := checkHttpGet ?n ?x in _] =>
      destruct (only_lastError_dispatch _ _ (checkHttpGet_only_lastError n x))
  | |- context [let (_, _) := checkPing ?n ?x in _] =>
      destruct (only_lastError_dispatch _ _ (checkPing_only_lastError n x))
  end.

Lemma run_check_lastCheck (net : Net) (now : Z) (s : Service) :
  lastCheck (run_check net now s) = now.
Proof.
  unfold run_check.
  destruct (type _ =? TYPE_HOME_ASSISTANT);
    [| destruct (type _ =? TYPE_JELLYFIN);
       [| destruct (type _ =? TYPE_HTTP_GET);
          [| destruct (type _ =? TYPE_PING)]]];
    try dispatch_lastCheck;
    destruct (isUp _); simpl; auto.
Qed.

Lemma ulong_small (z : Z) : 0 <= z < 2 ^ 32 -> ulong z = z.
Proof. intros H. unfold ulong, ULONG_MOD. apply Z.mod_small; exact H. Qed.

(** C10: on every scheduler tick, a record that is not due is left
    entirely unchanged: the record at its position after [checkServices]
    is the very same record, so none of [lastCheck], [isUp], [lastUptime],
    [lastError] (nor any other field) is modified. *)
Theorem checkServices_not_due_unchanged (net : Net) (now : Z)
    (rs : list Service) (i : nat) (s : Service) :
  nth_error rs i = Some s ->
  ulong (now - lastCheck s) < ulong (checkInterval s * 1000) ->
  nth_error (checkServices net now rs) i = Some s.
Proof.
  intros Hi Hlt.
  rewrite nth_error_checkServices, Hi; simpl.
  unfold check_one, due.
  apply Z.ltb_lt in Hlt; rewrite Hlt; reflexivity.
Qed.

Lemma checkServices_not_due_unchanged_witness :
  nth_error [sample_ping] 0 = Some sample_ping /\
  ulong (30000 - lastCheck sample_ping) < ulong (checkInterval sample_ping * 1000) /\
  nth_error (checkServices (const_net 200 "") 30000 [sample_ping]) 0 = Some sample_ping.
Proof.
  split; [reflexivity |].
  assert (H : ulong (30000 - lastCheck sample_ping)
              < ulong (checkInterval sample_ping * 1000)) by (vm_compute; reflexivity).
  split; [exact H |].
  exact (checkServices_not_due_unchanged (const_net 200 "") 30000 [sample_ping] 0
           sample_ping eq_refl H).
Defined.

(** C1 (as amended): on every tick at time [now] (a 32-bit [millis]
    value), the record at each position is run through the check (which
    stamps [lastCheck = now]) exactly when it is due, and is otherwise kept
    as it is.  Being due means [(now - lastCheck) mod 2^32 >=
    (checkInterval * 1000) mod 2^32].  There is no separate "never
    checked" case: a record that has never been checked has [lastCheck = 0]
    and is due exactly when [now >= checkInterval * 1000].  A record with
    [checkInterval = 10] is due exactly when at least 10000 ms (mod 2^32)
    have elapsed since its last check. *)
Theorem checkServices_due_iff (net : Net) (now : Z) (rs : list Service)
    (i : nat) (s : Service) :
  0 <= now < 2 ^ 32 ->
  nth_error rs i = Some s ->
  nth_error (checkServices net now rs) i
    = Some (if due now s then run_check net now s else s) /\
  lastCheck (run_check net now s) = now /\
  (due now s = true <-> ulong (checkInterval s * 1000) <= ulong (now - lastCheck s)) /\
  (lastCheck s = 0 -> 0 <= checkInterval s * 1000 < 2 ^ 32 ->
     (due now s = true <-> checkInterval s * 1000 <= now)) /\
  (checkInterval s = 10 -> (due now s = true <-> 10000 <= ulong (now - lastCheck s))).
Proof.
  intros Hnow Hi.
  assert (Hdue : due now s = true <->
                 ulong (checkInterval s * 1000) <= ulong (now - lastCheck s)).
  { unfold due. rewrite negb_true_iff, Z.ltb_ge. reflexivity. }
  split; [rewrite nth_error_checkServices, Hi; reflexivity |].
  split; [apply run_check_lastCheck |].
  split; [exact Hdue |].
  split.
  - intros H0 Hci. rewrite Hdue, H0, Z.sub_0_r, (ulong_small now Hnow),
      (ulong_small _ Hci). reflexivity.
  - intros H10. rewrite Hdue, H10. reflexivity.
Qed.

Lemma checkServices_due_iff_witness :
  (0 <= 70000 < 2 ^ 32 /\ nth_error [sample_ping] 0 = Some sample_ping) /\
  nth_error (checkServices (const_net 200 "") 70000 [sample_ping]) 0
    = Some (if due 70000 sample_ping
            then run_check (const_net 200 "") 70000 sample_ping else sample_ping).
Proof.
  assert (Hn : 0 <= 70000 < 2 ^ 32) by lia.
  split; [split; [exact Hn | reflexivity] |].
  exact (proj1 (checkServices_due_iff (const_net 200 "") 70000 [sample_ping] 0
                  sample_ping Hn eq_refl)).
Defined.

(** C1 counterexample: a record that has never been checked
    ([lastCheck = 0], interval 60 s) is not checked on the first tick of
    the scheduler, at [millis() = 5000]: it comes out of the tick
    unchanged, still never checked. *)
Lemma checkServices_never_checked_skipped :
  lastCheck sample_ping = 0 /\
  due 5000 sample_ping = false /\
  checkServices (const_net 200 "") 5000 [sample_ping] = [sample_ping].
Proof. vm_compute. auto. Qed.

(** ** Check strategies *)

(** The spec's notion of substring. *)
Definition is_substring (needle hay : string) : Prop :=
  exists a b, hay = a ++ needle ++ b.

Lemma prefix_app (n h : string) : prefix n h = true <-> exists b, h = n ++ b.
Proof.
  revert h; induction n as [| c n IH]; intros h.
  - split; [intros _; exists h; reflexivity | intros _; destruct h; reflexivity].
  - destruct h as [| c' h]; simpl.
    + split; [discriminate | intros [b Hb]; discriminate].
    + destruct (ascii_dec c c') as [-> | Hne].
      * rewrite IH. split; intros [b Hb]; exists b; [rewrite Hb | injection Hb]; auto.
      * split; [discriminate | intros [b Hb]; injection Hb; intros; congruence].
Qed.

Lemma strstr_from_range (h n : string) (i : Z) :
  strstr_from h n i = -1 \/ i <= strstr_from h n i.
Proof.
  revert i; induction h as [| c h IH]; intros i; cbn -[prefix].
  - destruct (prefix n ""); [right; lia | left; reflexivity].
  - destruct (prefix n (String c h)); [right; lia |].
    destruct (IH (i + 1)); [left | right]; lia.
Qed.

Lemma strstr_from_found (h n : string) (i : Z) :
  0 <= i -> (0 <= strstr_from h n i <-> is_substring n h).
Proof.
  unfold is_substring.
  revert i; induction h as [| c h IH]; intros i Hi; cbn -[prefix].
  - destruct (prefix n "") eqn:E.
    + split; [intros _ | lia].
      apply prefix_app in E as [b Hb]; exists "", b; exact Hb.
    + split; [lia |]. intros [a [b Hab]].
      destruct a; [| discriminate]. simpl in Hab.
      assert (prefix n "" = true) by (apply prefix_app; exists b; exact Hab).
      congruence.
  - destruct (prefix n (String c h)) eqn:E.
    + split; [intros _ | lia].
      apply prefix_app in E as [b Hb]; exists "", b; exact Hb.
    + rewrite (IH (i + 1)) by lia. split.
      * intros [a [b Hab]]. exists (String c a), b. rewrite Hab. reflexivity.
      * intros [a [b Hab]]. destruct a as [| c' a].
        -- simpl in Hab.
           assert (prefix n (String c h) = true)
             by (apply prefix_app; exists b; exact Hab).
           congruence.
        -- injection Hab as _ Hh. exists a, b. exact Hh.
Qed.

(** [indexOf] finds the needle exactly when the receiver is non-empty and
    its C string contains the C string of the needle. *)
Lemma indexOf_found (payload needle : string) :
  0 <= indexOf payload needle <->
  payload <> "" /\ is_substring (c_str needle) (c_str payload).
Proof.
  unfold indexOf. destruct payload as [| c p]; cbn [String.length Nat.eqb].
  - split; [lia | intros [H _]; congruence].
  - rewrite (strstr_from_found (c_str (String c p)) (c_str needle) 0) by lia.
    split; [intros H; split; [discriminate | exact H] | intros [_ H]; exact H].
Qed.

(** [String == literal] against a non-empty literal without NUL bytes is
    the comparison of the receiver's C string with the literal. *)
Lemma equals_cstr_literal (s lit : string) :
  c_str lit = lit -> lit <> "" -> equals_cstr s lit = String.eqb (c_str s) lit.
Proof.
  intros Hl Hne. unfold equals_cstr. rewrite Hl.
  destruct s as [| c s]; cbn [String.length Nat.eqb]; [| reflexivity].
  destruct lit; [congruence | reflexivity].
Qed.

(** The two HttpGet cases the spec lists as tests. *)
Example checkHttpGet_star_up :
  fst (checkHttpGet (const_net 200 "anything") (sample_http "*")) = true.
Proof. reflexivity. Qed.

Example checkHttpGet_degraded_mismatch :
  checkHttpGet (const_net 200 "status: degraded") (sample_http "ok")
  = (false, set_lastError "Response mismatch" (sample_http "ok")).
Proof. reflexivity. Qed.

(** A body whose first byte is NUL, followed by [ok]. *)
Definition nul_ok_body : string := String Ascii.zero "ok".

(** C2 (code defect): two 200 responses whose body contains
    [expectedResponse] as a substring, yet the check is DOWN with
    [Response mismatch].  (1) The body is a NUL byte followed by [ok] and
    [expectedResponse] is [ok]: [indexOf] hands the buffers to [strstr],
    which stops at the NUL, so the text after it is never searched.
    (2) The body and [expectedResponse] are both empty: [indexOf] returns
    [-1] on an empty receiver before any search. *)
Theorem checkHttpGet_substring_missed :
  (is_substring "ok" nul_ok_body /\
   checkHttpGet (const_net 200 nul_ok_body) (sample_http "ok")
   = (false, set_lastError "Response mismatch" (sample_http "ok"))) /\
  (is_substring "" "" /\
   checkHttpGet (const_net 200 "") (sample_http "")
   = (false, set_lastError "Response mismatch" (sample_http ""))).
Proof.
  split; split.
  - exists (String Ascii.zero ""), "". reflexivity.
  - reflexivity.
  - exists "", "". reflexivity.
  - reflexivity.
Qed.

(** The verdict of [checkHttpGet] for the response [(code, payload)] to
    [GET http://host:port path]: a transport failure ([code <= 0]) is DOWN
    with [Connection failed: <code>]; a status other than 200 is DOWN with
    [HTTP <code>]; status 200 with [expectedResponse == "*"] (the C string
    of [expectedResponse] is [*]) is UP; otherwise status 200 is UP exactly
    when the body is non-empty and the C string of the body (up to its
    first NUL) contains the C string of [expectedResponse], and DOWN with
    [Response mismatch] when not.  The record is otherwise returned
    unchanged. *)
Theorem checkHttpGet_verdict (net : Net) (s : Service) (code : Z) (payload : string) :
  http_get net (base_url s ++ path s) = (code, payload) ->
  (code <= 0 ->
     checkHttpGet net s
     = (false, set_lastError ("Connection failed: " ++ String_of_Z code) s)) /\
  (0 < code -> code <> 200 ->
     checkHttpGet net s = (false, set_lastError ("HTTP " ++ String_of_Z code) s)) /\
  (code = 200 -> c_str (expectedResponse s) = "*" -> checkHttpGet net s = (true, s)) /\
  (code = 200 -> c_str (expectedResponse s) <> "*" ->
     (payload <> "" /\ is_substring (c_str (expectedResponse s)) (c_str payload) ->
        checkHttpGet net s = (true, s)) /\
     (~ (payload <> "" /\ is_substring (c_str (expectedResponse s)) (c_str payload)) ->
        checkHttpGet net s = (false, set_lastError "Response mismatch" s))).
Proof.
  intros Hget. unfold checkHttpGet. rewrite Hget.
  rewrite (equals_cstr_literal (expectedResponse s) "*" eq_refl ltac:(discriminate)).
  split; [intros Hc; replace (0 <? code) with false by lia; reflexivity |].
  split; [intros Hc H200; replace (0 <? code) with true by lia;
          replace (code =? 200) with false by lia; reflexivity |].
  split; [intros -> Hstar; rewrite Hstar; reflexivity |].
  intros -> Hstar. simpl.
  destruct (String.eqb_spec (c_str (expectedResponse s)) "*") as [E | _]; [contradiction |].
  pose proof (indexOf_found payload (expectedResponse s)) as Hf.
  destruct (0 <=? indexOf payload (expectedResponse s)) eqn:E.
  - apply Z.leb_le in E. split; [reflexivity | intros Hn; exfalso; apply Hn, Hf, E].
  - apply Z.leb_gt in E. split; [intros Hy; apply Hf in Hy; lia | reflexivity].
Qed.

Lemma checkHttpGet_verdict_witness :
  http_get (const_net 200 "status: ok") (base_url (sample_http "ok") ++ path (sample_http "ok"))
    = (200, "status: ok") /\
  checkHttpGet (const_net 200 "status: ok") (sample_http "ok") = (true, sample_http "ok").
Proof.
  split; [reflexivity |].
  apply (checkHttpGet_verdict (const_net 200 "status: ok") (sample_http "ok") 200
           "status: ok" eq_refl); [reflexivity | discriminate |].
  split; [discriminate |]. exists "status: ", "". reflexivity.
Defined.

(** C3 (code defect): a Jellyfin service whose server answers 503.  The
    check is DOWN, but no error is recorded: [checkJellyfin] returns the
    record untouched, and after the scheduler's update the record is down
    with an empty [lastError], not [Connection failed: 503]. *)
Theorem checkJellyfin_503_no_error :
  checkJellyfin (const_net 503 "Service Unavailable") sample_jellyfin
    = (false, sample_jellyfin) /\
  isUp (run_check (const_net 503 "Service Unavailable") 120000 sample_jellyfin) = false /\
  lastError (run_check (const_net 503 "Service Unavailable") 120000 sample_jellyfin) = "" /\
  lastError (run_check (const_net 503 "Service Unavailable") 120000 sample_jellyfin)
    <> "Connection failed: " ++ String_of_Z 503.
Proof. vm_compute. split; [reflexivity |]. split; [reflexivity |].
  split; [reflexivity | discriminate]. Qed.

(** ** Registry operations *)

Arguments with_reg {Bytes} _ _.
Arguments saveServices {Bytes} _ _.
Arguments loadServices {Bytes} _ _.
Arguments createService {Bytes} _ _ _ _ _ _.
Arguments deleteService {Bytes} _ _ _.
Arguments tick {Bytes} _ _ _.
Arguments OpCreate {Bytes} _ _ _.
Arguments OpDelete {Bytes} _.
Arguments OpLoad {Bytes}.
Arguments OpTick {Bytes} _ _.
Arguments run_op {Bytes} _ _ _ _.
Arguments run_ops {Bytes} _ _ _ _.

(** A store that keeps documents as they are, for concrete runs. *)
Definition doc_codec (d : json) : json := d.

Definition empty_world : World json := mkWorld [] None true 0.



Definition create_body (typeStr hostStr : string) : json :=
  JObj [("name", JStr "box"); ("type", JStr typeStr); ("host", JStr hostStr)].

Lemma reg_saveServices {Bytes} (ser : json -> Bytes) (w : World Bytes) :
  reg (saveServices ser w) = reg w.
Proof. unfold saveServices; destruct (fs_writable w); reflexivity. Qed.

Lemma writes_saveServices {Bytes} (ser : json -> Bytes) (w : World Bytes) :
  writes (saveServices ser w) = if fs_writable w then S (writes w) else writes w.
Proof. unfold saveServices; destruct (fs_writable w); reflexivity. Qed.

(** C4 counterexample: a create with an empty host, on an empty registry,
    succeeds: the record is appended with [host = ""] and the file is
    written. *)
Lemma createService_empty_host_accepted :
  let (resp, w') := createService doc_codec Some 5000 1234
                      (create_body "ping" "") empty_world in
  status resp = 200 /\ List.map host (reg w') = [""] /\ writes w' = 1%nat.
Proof. vm_compute. auto. Qed.

(** C4 (as amended): the create handler does not validate [host].  With
    fewer than 20 records, a body that parses and a valid [type], a create
    whose [host] is the empty string succeeds: one record, with the fresh
    id, the parsed type and an empty host, is appended and the registry is
    saved. *)
Theorem createService_empty_host {Bytes} (ser : json -> Bytes)
    (des : Bytes -> option json) (millis rnd : Z) (data : Bytes)
    (w : World Bytes) (doc : json) (t : Z) :
  (List.length (reg w) < MAX_SERVICES)%nat ->
  des data = Some doc ->
  parseServiceType (as_String (member doc "type")) = Some t ->
  member doc "host" = JStr "" ->
  let (resp, w') := createService ser des millis rnd data w in
  status resp = 200 /\
  (exists ns, reg w' = List.app (reg w) [ns] /\ host ns = "" /\
     id ns = generateServiceId millis rnd /\ type ns = t) /\
  writes w' = (if fs_writable w then S (writes w) else writes w).
Proof.
  intros Hlen Hdes Htype Hhost.
  unfold createService.
  replace (MAX_SERVICES <=? List.length (reg w))%nat with false
    by (symmetry; apply Nat.leb_gt; exact Hlen).
  rewrite Hdes, Htype.
  split; [reflexivity |].
  rewrite reg_saveServices, writes_saveServices.
  split; [| reflexivity].
  eexists; split; [reflexivity |].
  unfold new_service; cbn [host id type]. rewrite Hhost. repeat split.
Qed.

Lemma createService_empty_host_witness :
  ((List.length (reg empty_world) < MAX_SERVICES)%nat /\
   Some (create_body "ping" "") = Some (create_body "ping" "") /\
   parseServiceType (as_String (member (create_body "ping" "") "type")) = Some TYPE_PING /\
   member (create_body "ping" "") "host" = JStr "") /\
  let (resp, w') := createService doc_codec Some 5000 1234
                      (create_body "ping" "") empty_world in
  status resp = 200 /\
  (exists ns, reg w' = List.app (reg empty_world) [ns] /\ host ns = "" /\
     id ns = generateServiceId 5000 1234 /\ type ns = TYPE_PING) /\
  writes w' = (if fs_writable empty_world then S (writes empty_world) else writes empty_world).
Proof.
  assert (H1 : (List.length (reg empty_world) < MAX_SERVICES)%nat)
    by (vm_compute; lia).
  split; [split; [exact H1 | split; [reflexivity | split; reflexivity]] |].
  exact (createService_empty_host doc_codec Some 5000 1234 (create_body "ping" "")
           empty_world (create_body "ping" "") TYPE_PING H1 eq_refl eq_refl eq_refl).
Defined.




(** ** Capacity *)

Lemma length_remove_first (sid : string) (rs : list Service) :
  (List.length (remove_first sid rs) <= List.length rs)%nat.
Proof.
  induction rs as [| s rs IH]; simpl; [lia |].
  destruct (String_eq (id s) sid); simpl; lia.
Qed.

Lemma length_load_loop (count : nat) (l : list json) :
  (List.length (load_loop count l) <= MAX_SERVICES - count)%nat.
Proof.
  revert count; induction l as [| obj l IH]; intros count; cbn [load_loop]; [simpl; lia |].
  destruct (MAX_SERVICES <=? count)%nat eqn:E; cbn [List.length]; [lia |].
  apply Nat.leb_gt in E. specialize (IH (S count)). lia.
Qed.

Lemma createService_capacity {Bytes} (ser : json -> Bytes) (des : Bytes -> option json)
    (millis rnd : Z) (data : Bytes) (w : World Bytes) :
  (List.length (reg w) <= MAX_SERVICES)%nat ->
  (List.length (reg (snd (createService ser des millis rnd data w))) <= MAX_SERVICES)%nat.
Proof.
  intros H. unfold createService.
  destruct (MAX_SERVICES <=? List.length (reg w))%nat eqn:E; simpl; [exact H |].
  apply Nat.leb_gt in E.
  destruct (des data) as [doc |]; simpl; [| exact H].
  destruct (parseServiceType _); simpl; [| exact H].
  rewrite reg_saveServices; simpl. rewrite length_app; simpl. lia.
Qed.

Lemma run_op_capacity {Bytes} (ser : json -> Bytes) (des : Bytes -> option json)
    (w : World Bytes) (o : Op Bytes) :
  (List.length (reg w) <= MAX_SERVICES)%nat ->
  (List.length (reg (run_op ser des w o)) <= MAX_SERVICES)%nat.
Proof.
  intros H. destruct o as [millis rnd data | url | | net t]; simpl.
  - apply createService_capacity; exact H.
  - unfold deleteService.
    destruct (existsb _ (reg w)); simpl; [| exact H].
    rewrite reg_saveServices; simpl.
    pose proof (length_remove_first (last_segment url) (reg w)); lia.
  - unfold loadServices.
    destruct (file w) as [bytes |]; [| exact H].
    destruct (des bytes) as [doc |]; [| exact H].
    simpl. pose proof (length_load_loop 0 (array_elems (member doc "services"))). lia.
  - rewrite length_checkServices; exact H.
Qed.

(** C6: the registry never holds more than 20 records after any sequence
    of creates, deletes, loads from the store and scheduler ticks; and a
    create issued when the registry holds 20 records is answered with the
    [Maximum services reached] error and changes nothing. *)
Theorem registry_capacity {Bytes} (ser : json -> Bytes) (des : Bytes -> option json)
    (w : World Bytes) (os : list (Op Bytes)) :
  (List.length (reg w) <= MAX_SERVICES)%nat ->
  (List.length (reg (run_ops ser des w os)) <= MAX_SERVICES)%nat /\
  (List.length (reg w) = MAX_SERVICES ->
   forall millis rnd data,
     createService ser des millis rnd data w
     = (mkResponse 400 (error_body "Maximum services reached"), w)).
Proof.
  intros H. split.
  - unfold run_ops. revert w H; induction os as [| o os IH]; intros w H; simpl; [exact H |].
    apply IH, run_op_capacity, H.
  - intros Hfull millis rnd data. unfold createService.
    rewrite Hfull, Nat.leb_refl. reflexivity.
Qed.

Definition full_world : World json :=
  mkWorld (repeat sample_ping MAX_SERVICES) None true 0.

Lemma registry_capacity_witness :
  (List.length (reg full_world) <= MAX_SERVICES)%nat /\
  createService doc_codec Some 9000 4321 (create_body "ping" "10.0.0.1") full_world
  = (mkResponse 400 (error_body "Maximum services reached"), full_world).
Proof.
  assert (H : (List.length (reg full_world) <= MAX_SERVICES)%nat) by (vm_compute; lia).
  split; [exact H |].
  apply (proj2 (registry_capacity doc_codec Some full_world [] H)).
  reflexivity.
Defined.

(** ** Persistence *)

Definition durable_keys : list string :=
  ["id"; "name"; "type"; "host"; "port"; "path"; "expectedResponse"; "checkInterval"].

Definition volatile_keys : list string :=
  ["isUp"; "lastCheck"; "lastUptime"; "lastError"; "secondsSinceLastCheck"].

Definition obj_keys (v : json) : list string :=
  match v with
  | JObj l => List.map fst l
  | _ => []
  end.

Lemma nth_error_map_some {A B} (f : A -> B) (l : list A) (i : nat) (b : B) :
  nth_error (List.map f l) i = Some b -> exists a, nth_error l i = Some a /\ b = f a.
Proof.
  rewrite nth_error_map. destruct (nth_error l i) as [a |]; simpl; [| discriminate].
  intros [= <-]. eauto.
Qed.

(** C5 (as amended): [saveServices] overwrites the store with the
    serialization of a document whose only key is [services], an array with
    one entry per record, in order.  Each entry has exactly the keys [id],
    [name], [type], [host], [port], [path], [expectedResponse],
    [checkInterval], and none of the volatile fields; the [type] field is
    the integer value of the enumerator (0 home_assistant, 1 jellyfin,
    2 http_get, 3 ping), not its name.  When the file cannot be opened
    nothing is written. *)
Theorem saveServices_store_shape {Bytes} (ser : json -> Bytes) (w : World Bytes) :
  file (saveServices ser w)
    = (if fs_writable w then Some (ser (services_doc (reg w))) else file w) /\
  obj_keys (services_doc (reg w)) = ["services"] /\
  exists entries,
    member (services_doc (reg w)) "services" = JArr entries /\
    List.length entries = List.length (reg w) /\
    forall i e, nth_error entries i = Some e ->
      exists s, nth_error (reg w) i = Some s /\
        obj_keys e = durable_keys /\
        member e "type" = JInt (type s) /\
        Forall (fun k => member e k = JNull) volatile_keys.
Proof.
  split; [unfold saveServices; destruct (fs_writable w); reflexivity |].
  split; [reflexivity |].
  exists (List.map service_to_json (reg w)).
  split; [reflexivity |].
  split; [apply length_map |].
  intros i e Hi. apply nth_error_map_some in Hi as [s [Hs ->]].
  exists s. split; [exact Hs |].
  split; [reflexivity |]. split; [reflexivity |].
  repeat constructor.
Qed.

(** C5 counterexample: saving a registry holding one ping service writes
    [type] as the integer 3, not as the string [ping]. *)
Lemma saveServices_type_is_integer :
  member (services_doc [sample_ping]) "services"
    = JArr [service_to_json sample_ping] /\
  member (service_to_json sample_ping) "type" = JInt 3 /\
  getServiceTypeString (type sample_ping) = "ping" /\
  forall str, member (service_to_json sample_ping) "type" <> JStr str.
Proof.
  split; [reflexivity |]. split; [reflexivity |]. split; [reflexivity |].
  intros str; discriminate.
Qed.

(** The record [s] as a cold start restores it: its configuration, with
    every status field at its initial value. *)
Definition cold_start (s : Service) : Service :=
  {| id := id s; name := name s; type := type s; host := host s;
     port := port s; path := path s; expectedResponse := expectedResponse s;
     checkInterval := checkInterval s;
     isUp := false; lastCheck := 0; lastUptime := 0; lastError := "";
     secondsSinceLastCheck := -1 |}.

(** The integer fields hold C++ [int] values. *)
Definition int_fields_ok (s : Service) : Prop :=
  in_int (type s) = true /\ in_int (port s) = true /\ in_int (checkInterval s) = true.

Lemma service_of_to_json (s : Service) :
  int_fields_ok s -> service_of_json (service_to_json s) = cold_start s.
Proof.
  intros [Ht [Hp Hc]].
  unfold service_of_json, service_to_json, cold_start. cbn.
  rewrite Ht, Hp, Hc. reflexivity.
Qed.

Lemma load_loop_map (count : nat) (l : list json) :
  (List.length l + count <= MAX_SERVICES)%nat ->
  load_loop count l = List.map service_of_json l.
Proof.
  revert count; induction l as [| obj l IH]; intros count H; cbn [load_loop]; [reflexivity |].
  cbn [List.length] in H.
  replace (MAX_SERVICES <=? count)%nat with false by (symmetry; apply Nat.leb_gt; lia).
  rewrite IH by lia. reflexivity.
Qed.

(** C7: saving a registry and loading the store back rebuilds the same
    sequence of records, in order, equal on every durable field, with every
    volatile field at its cold-start value.  This holds for every registry
    the array can hold (at most 20 records, integer fields in [int]), when
    the file can be written and the JSON codec reads back what it wrote. *)
Theorem load_save_roundtrip {Bytes} (ser : json -> Bytes) (des : Bytes -> option json)
    (Hcodec : forall d, des (ser d) = Some d) (w : World Bytes) :
  fs_writable w = true ->
  (List.length (reg w) <= MAX_SERVICES)%nat ->
  Forall int_fields_ok (reg w) ->
  reg (loadServices des (saveServices ser w)) = List.map cold_start (reg w).
Proof.
  intros Hw Hlen Hok.
  unfold loadServices, saveServices. rewrite Hw. cbn [file reg].
  rewrite Hcodec. cbn [with_reg reg].
  change (member (services_doc (reg w)) "services")
    with (JArr (List.map service_to_json (reg w))).
  cbn [array_elems].
  rewrite load_loop_map by (rewrite length_map; lia).
  rewrite map_map. apply map_ext_Forall.
  eapply Forall_impl; [| exact Hok]. intros s Hs. apply service_of_to_json, Hs.
Qed.

Definition one_world : World json := mkWorld [sample_ping; sample_http "ok"] None true 0.

Lemma load_save_roundtrip_witness :
  (forall d, Some (doc_codec d) = Some d) /\
  fs_writable one_world = true /\
  (List.length (reg one_world) <= MAX_SERVICES)%nat /\
  Forall int_fields_ok (reg one_world) /\
  reg (loadServices Some (saveServices doc_codec one_world))
    = List.map cold_start (reg one_world).
Proof.
  assert (Hc : forall d, Some (doc_codec d) = Some d) by (intros d; reflexivity).
  assert (Hl : (List.length (reg one_world) <= MAX_SERVICES)%nat) by (vm_compute; lia).
  assert (Hf : Forall int_fields_ok (reg one_world))
    by (repeat constructor).
  split; [exact Hc |]. split; [reflexivity |]. split; [exact Hl |].
  split; [exact Hf |].
  exact (load_save_roundtrip doc_codec Some Hc one_world eq_refl Hl Hf).
Defined.

(** ** Service ids *)

Lemma length_string_app (a b : string) :
  String.length (a ++ b) = (String.length a + String.length b)%nat.
Proof. induction a as [| c a IH]; simpl; auto. Qed.

Lemma string_app_cancel (s1 s2 t1 t2 : string) :
  String.length t1 = String.length t2 ->
  s1 ++ t1 = s2 ++ t2 -> s1 = s2 /\ t1 = t2.
Proof.
  revert s2; induction s1 as [| c s1 IH]; intros s2 Hlen Heq.
  - destruct s2 as [| c' s2]; [split; auto |].
    exfalso. pose proof (f_equal String.length Heq) as HL.
    simpl in HL. rewrite length_string_app in HL. lia.
  - destruct s2 as [| c' s2].
    + exfalso. pose proof (f_equal String.length Heq) as HL.
      simpl in HL. rewrite length_string_app in HL. lia.
    + injection Heq as -> Heq'. destruct (IH s2 Hlen Heq') as [-> ->]. auto.
Qed.

Lemma to_uint_not_nil (n : N) : N.to_uint n <> Nil.
Proof.
  intros H. pose proof (DecimalN.Unsigned.of_to n) as E.
  rewrite H in E. simpl in E. subst n. discriminate H.
Qed.

Lemma string_of_N_inj (n m : N) : string_of_N n = string_of_N m -> n = m.
Proof.
  unfold string_of_N. intros H.
  apply (f_equal NilZero.uint_of_string) in H.
  rewrite !NilZero.usu in H by apply to_uint_not_nil.
  injection H as H. apply DecimalN.Unsigned.to_uint_inj, H.
Qed.

Lemma four_digit_check_ok :
  forallb (fun k => Nat.eqb (String.length (string_of_N (N.of_nat k))) 4)
          (seq 1000 (9 * 1000)) = true.
Proof. vm_compute. reflexivity. Qed.

Lemma string_of_N_four_digits (n : N) :
  (1000 <= n < 10000)%N -> String.length (string_of_N n) = 4%nat.
Proof.
  intros Hn.
  assert (Hin : In (N.to_nat n) (seq 1000 (9 * 1000))) by (apply in_seq; lia).
  pose proof (proj1 (forallb_forall _ _) four_digit_check_ok (N.to_nat n) Hin) as C.
  cbv beta in C. rewrite N2Nat.id in C. apply Nat.eqb_eq, C.
Qed.

Lemma String_of_Z_nonneg (z : Z) : 0 <= z -> String_of_Z z = string_of_N (Z.to_N z).
Proof.
  intros H. unfold String_of_Z. replace (z <? 0) with false by lia. reflexivity.
Qed.

(** C8 (as amended): an id is [String(millis()) + String(random(1000,
    9999))], and two ids are equal only when both the [millis] value and the
    random draw are equal.  Nothing stronger is guaranteed: see the
    counterexample below. *)
Theorem generateServiceId_injective (m1 m2 r1 r2 : Z) :
  0 <= m1 -> 0 <= m2 -> 1000 <= r1 < 9999 -> 1000 <= r2 < 9999 ->
  generateServiceId m1 r1 = generateServiceId m2 r2 -> m1 = m2 /\ r1 = r2.
Proof.
  intros Hm1 Hm2 Hr1 Hr2 H. unfold generateServiceId in H.
  rewrite !String_of_Z_nonneg in H by lia.
  apply string_app_cancel in H as [H1 H2].
  - apply string_of_N_inj in H1. apply string_of_N_inj in H2. split; lia.
  - rewrite !string_of_N_four_digits by lia. reflexivity.
Qed.

Lemma generateServiceId_injective_witness :
  (0 <= 5000 /\ 0 <= 5000 /\ 1000 <= 1234 < 9999 /\ 1000 <= 1234 < 9999 /\
   generateServiceId 5000 1234 = generateServiceId 5000 1234) /\
  (5000 = 5000 /\ 1234 = 1234).
Proof.
  assert (H1 : 0 <= 5000) by lia. assert (H2 : 1000 <= 1234 < 9999) by lia.
  split; [split; [exact H1 | split; [exact H1 | split; [exact H2 | split; [exact H2 | reflexivity]]]] |].
  exact (generateServiceId_injective 5000 5000 1234 1234 H1 H1 H2 H2 eq_refl).
Defined.

(** C8 counterexample: two creates that see the same [millis()] value
    (for instance one 2^32 ms after the other, once the 32-bit counter has
    wrapped) and the same random draw get the same id; no check against
    the live registry prevents it, and the registry then holds two records
    with one id. *)
Lemma createService_duplicate_ids :
  List.map id
    (reg (run_ops doc_codec Some empty_world
            [OpCreate 5000 1234 (create_body "ping" "10.0.0.1");
             OpCreate 5000 1234 (create_body "ping" "10.0.0.2")]))
  = ["50001234"; "50001234"].
Proof. vm_compute. reflexivity. Qed.

(** * Further properties of the code *)

(** ** Checks and the scheduler *)

Ltac strategy_case f lem net x :=
  let b := fresh "b" in let s' := fresh "s'" in let E := fresh "E" in
  let H := fresh "H" in let e := fresh "e" in
  destruct (f net x) as [b s'] eqn:E;
  assert (H : only_lastError x s')
    by (pose proof (lem net x) as H; rewrite E in H; exact H);
  destruct H as [-> | [e ->]]; destruct b.

Lemma run_check_facts (net : Net) (now : Z) (s : Service) :
  lastCheck (run_check net now s) = now /\
  cold_start (run_check net now s) = cold_start s /\
  secondsSinceLastCheck (run_check net now s) = secondsSinceLastCheck s /\
  isUp (run_check net now s)
    = match verdict net (set_lastCheck now s) with Some b => b | None => isUp s end /\
  (isUp (run_check net now s) = true ->
     lastUptime (run_check net now s) = now /\ lastError (run_check net now s) = "") /\
  (isUp (run_check net now s) = false ->
     lastUptime (run_check net now s) = lastUptime s).
Proof.
  unfold run_check, verdict.
  set (s1 := set_lastCheck now s).
  destruct (type s1 =? TYPE_HOME_ASSISTANT);
    [strategy_case checkHomeAssistant checkHomeAssistant_only_lastError net s1
    | destruct (type s1 =? TYPE_JELLYFIN);
      [strategy_case checkJellyfin checkJellyfin_only_lastError net s1
      | destruct (type s1 =? TYPE_HTTP_GET);
        [strategy_case checkHttpGet checkHttpGet_only_lastError net s1
        | destruct (type s1 =? TYPE_PING);
          [strategy_case checkPing checkPing_only_lastError net s1
          | destruct (isUp s1) eqn:U]]]];
    subst s1; unfold set_lastError, set_lastUptime, set_isUp, set_lastCheck in *; cbn in *;
    repeat split; intros; try discriminate; try reflexivity; try congruence.
Qed.

(** X3: a due check stamps [lastCheck = now], sets [isUp] to the verdict of
    the strategy for the record's type (keeping the old [isUp] for a type
    no case matches), on UP sets [lastUptime = now] and clears [lastError],
    on DOWN keeps [lastUptime], and never changes the record's
    configuration nor [secondsSinceLastCheck]. *)
Theorem run_check_status_update (net : Net) (now : Z) (s : Service) :
  lastCheck (run_check net now s) = now /\
  cold_start (run_check net now s) = cold_start s /\
  secondsSinceLastCheck (run_check net now s) = secondsSinceLastCheck s /\
  isUp (run_check net now s)
    = match verdict net (set_lastCheck now s) with Some b => b | None => isUp s end /\
  (isUp (run_check net now s) = true ->
     lastUptime (run_check net now s) = now /\ lastError (run_check net now s) = "") /\
  (isUp (run_check net now s) = false ->
     lastUptime (run_check net now s) = lastUptime s).
Proof. apply run_check_facts. Qed.

Lemma check_one_config (net : Net) (now : Z) (s : Service) :
  cold_start (check_one net now s) = cold_start s.
Proof.
  unfold check_one. destruct (due now s); [apply run_check_facts | reflexivity].
Qed.

(** X4: a scheduler tick keeps the registry's size and order and never
    changes the configuration (id, name, type, host, port, path,
    expectedResponse, checkInterval) of any record. *)
Theorem checkServices_keeps_config (net : Net) (now : Z) (rs : list Service) :
  List.map cold_start (checkServices net now rs) = List.map cold_start rs.
Proof.
  induction rs as [| s rs IH]; simpl; [reflexivity |].
  rewrite check_one_config, IH. reflexivity.
Qed.

(** X6: two ticks at the same [millis()] value do no more than one, when
    every record's interval is non-zero modulo 2^32: a record checked by
    the first tick has just been stamped with [now], and a record skipped
    by the first is skipped again. *)
Theorem checkServices_same_time_idempotent (net : Net) (now : Z) (rs : list Service) :
  Forall (fun s => 0 < ulong (checkInterval s * 1000)) rs ->
  checkServices net now (checkServices net now rs) = checkServices net now rs.
Proof.
  induction 1 as [| s rs Hs _ IH]; simpl; [reflexivity |].
  rewrite IH. f_equal.
  assert (Hci : checkInterval (check_one net now s) = checkInterval s)
    by exact (f_equal checkInterval (check_one_config net now s)).
  destruct (due now s) eqn:D.
  - assert (Hlc : lastCheck (check_one net now s) = now)
      by (unfold check_one; rewrite D; apply run_check_facts).
    set (r := check_one net now s) in *.
    unfold check_one.
    replace (due now r) with false; [reflexivity |].
    unfold due. rewrite Hci, Hlc, Z.sub_diag.
    unfold ulong at 1; rewrite Z.mod_0_l by (unfold ULONG_MOD; lia).
    apply Z.ltb_lt in Hs. rewrite Hs. reflexivity.
  - unfold check_one. rewrite D. rewrite D. reflexivity.
Qed.

Lemma checkServices_same_time_idempotent_witness :
  Forall (fun s => 0 < ulong (checkInterval s * 1000)) [sample_ping; sample_http "ok"] /\
  checkServices (const_net 200 "ok") 70000
    (checkServices (const_net 200 "ok") 70000 [sample_ping; sample_http "ok"])
  = checkServices (const_net 200 "ok") 70000 [sample_ping; sample_http "ok"].
Proof.
  assert (H : Forall (fun s => 0 < ulong (checkInterval s * 1000))
                [sample_ping; sample_http "ok"])
    by (repeat constructor; vm_compute; reflexivity).
  split; [exact H |].
  exact (checkServices_same_time_idempotent (const_net 200 "ok") 70000 _ H).
Defined.

(** X1: the Home Assistant check is UP for any positive HTTP status (404
    included) and records nothing; a transport failure ([code <= 0]) is
    DOWN with [Connection failed: <code>]. *)
Theorem checkHomeAssistant_verdict (net : Net) (s : Service) (code : Z) (payload : string) :
  http_get net (base_url s ++ "/api/") = (code, payload) ->
  (0 < code -> checkHomeAssistant net s = (true, s)) /\
  (code <= 0 ->
     checkHomeAssistant net s
     = (false, set_lastError ("Connection failed: " ++ String_of_Z code) s)).
Proof.
  intros H. unfold checkHomeAssistant. rewrite H.
  split; intros Hc; [replace (0 <? code) with true | replace (0 <? code) with false];
    (reflexivity || lia).
Qed.

Lemma checkHomeAssistant_verdict_witness :
  http_get (const_net 404 "Not Found") (base_url sample_ping ++ "/api/") = (404, "Not Found") /\
  checkHomeAssistant (const_net 404 "Not Found") sample_ping = (true, sample_ping).
Proof.
  split; [reflexivity |].
  apply (proj1 (checkHomeAssistant_verdict (const_net 404 "Not Found") sample_ping 404
                  "Not Found" eq_refl)).
  lia.
Defined.

(** X2: the Jellyfin check is UP exactly on status 200; any other positive
    status is DOWN and leaves the record (its [lastError] included) as it
    was; a transport failure is DOWN with [Connection failed: <code>]. *)
Theorem checkJellyfin_verdict (net : Net) (s : Service) (code : Z) (payload : string) :
  http_get net (base_url s ++ "/health") = (code, payload) ->
  (code = 200 -> checkJellyfin net s = (true, s)) /\
  (0 < code -> code <> 200 -> checkJellyfin net s = (false, s)) /\
  (code <= 0 ->
     checkJellyfin net s
     = (false, set_lastError ("Connection failed: " ++ String_of_Z code) s)).
Proof.
  intros H. unfold checkJellyfin. rewrite H.
  split; [intros ->; reflexivity |].
  split; [intros Hc Hn; replace (0 <? code) with true by lia;
          replace (code =? 200) with false by lia; reflexivity |].
  intros Hc; replace (0 <? code) with false by lia; reflexivity.
Qed.

Lemma checkJellyfin_verdict_witness :
  http_get (const_net (-1) "") (base_url sample_jellyfin ++ "/health") = (-1, "") /\
  checkJellyfin (const_net (-1) "") sample_jellyfin
  = (false, set_lastError ("Connection failed: " ++ String_of_Z (-1)) sample_jellyfin).
Proof.
  split; [reflexivity |].
  apply (proj2 (proj2 (checkJellyfin_verdict (const_net (-1) "") sample_jellyfin (-1) ""
                         eq_refl))).
  lia.
Defined.

(** X5: a record whose type is none of the four enumerators (a value
    [loadServices] can cast from the store) is never probed: the result of
    its check does not depend on the network, and its [isUp] is kept. *)
Theorem run_check_unknown_type_no_probe (net1 net2 : Net) (now : Z) (s : Service) :
  type s <> TYPE_HOME_ASSISTANT -> type s <> TYPE_JELLYFIN ->
  type s <> TYPE_HTTP_GET -> type s <> TYPE_PING ->
  run_check net1 now s = run_check net2 now s /\ isUp (run_check net1 now s) = isUp s.
Proof.
  intros H0 H1 H2 H3. unfold run_check. cbn [type set_lastCheck].
  unfold TYPE_HOME_ASSISTANT, TYPE_JELLYFIN, TYPE_HTTP_GET, TYPE_PING in *.
  replace (type s =? 0) with false by lia. replace (type s =? 1) with false by lia.
  replace (type s =? 2) with false by lia. replace (type s =? 3) with false by lia.
  split; [reflexivity |]. unfold set_lastError, set_lastUptime, set_lastCheck; cbn. destruct (isUp s); reflexivity.
Qed.

Definition sample_unknown : Service :=
  service_of_json (JObj [("id", JStr "1"); ("type", JInt 7); ("host", JStr "10.0.0.9")]).

Lemma run_check_unknown_type_no_probe_witness :
  (type sample_unknown <> TYPE_HOME_ASSISTANT /\ type sample_unknown <> TYPE_JELLYFIN /\
   type sample_unknown <> TYPE_HTTP_GET /\ type sample_unknown <> TYPE_PING) /\
  isUp (run_check (const_net 200 "") 90000 sample_unknown) = isUp sample_unknown.
Proof.
  assert (H0 : type sample_unknown <> TYPE_HOME_ASSISTANT) by discriminate.
  assert (H1 : type sample_unknown <> TYPE_JELLYFIN) by discriminate.
  assert (H2 : type sample_unknown <> TYPE_HTTP_GET) by discriminate.
  assert (H3 : type sample_unknown <> TYPE_PING) by discriminate.
  split; [auto |].
  exact (proj2 (run_check_unknown_type_no_probe (const_net 200 "") (const_net 200 "")
                  90000 sample_unknown H0 H1 H2 H3)).
Defined.

(** ** Deleting and loading *)

Lemma has_slash_app (a b : string) : has_slash (a ++ b) = has_slash a || has_slash b.
Proof. induction a as [| c a IH]; simpl; [reflexivity | rewrite IH, orb_assoc; reflexivity]. Qed.

Lemma last_segment_after_slash (p sid : string) :
  has_slash sid = false -> last_segment (p ++ "/" ++ sid) = sid.
Proof.
  intros Hs. induction p as [| c p IH].
  - simpl. rewrite Hs. reflexivity.
  - cbn [append last_segment].
    rewrite has_slash_app. cbn [has_slash]. rewrite orb_true_r. exact IH.
Qed.

Lemma String_eq_refl (a : string) : String_eq a a = true.
Proof. unfold String_eq. rewrite Nat.eqb_refl, String.eqb_refl. reflexivity. Qed.

Lemma remove_first_split (sid : string) (a b : list Service) (s : Service) :
  Forall (fun x => String_eq (id x) sid = false) a -> String_eq (id s) sid = true ->
  remove_first sid (List.app a (s :: b)) = List.app a b.
Proof.
  intros Ha Hs. induction Ha as [| x a Hx _ IH]; simpl.
  - rewrite Hs. reflexivity.
  - rewrite Hx, IH. reflexivity.
Qed.

Lemma remove_first_absent (sid : string) (rs : list Service) :
  existsb (fun s => String_eq (id s) sid) rs = false -> remove_first sid rs = rs.
Proof.
  induction rs as [| s rs IH]; simpl; [reflexivity |].
  intros H. apply orb_false_iff in H as [H1 H2]. rewrite H1, IH by exact H2. reflexivity.
Qed.

(** X7: [DELETE /api/services/<sid>] (an id without [/]) answers 404 and
    changes nothing when no record has that id; otherwise it removes the
    first record with that id, keeps the others in their order, answers
    200 and saves the new registry.  Ids are compared with the [==] of
    Arduino [String]s ([String_eq]: same length, [strcmp] equal), which
    for ids without NUL bytes is equality. *)
Theorem deleteService_by_url {Bytes} (ser : json -> Bytes) (w : World Bytes) (sid : string) :
  has_slash sid = false ->
  (existsb (fun s => String_eq (id s) sid) (reg w) = false ->
     deleteService ser ("/api/services/" ++ sid) w
     = (mkResponse 404 (error_body "Service not found"), w)) /\
  (forall a s b, reg w = List.app a (s :: b) -> String_eq (id s) sid = true ->
     Forall (fun x => String_eq (id x) sid = false) a ->
     deleteService ser ("/api/services/" ++ sid) w
     = (mkResponse 200 success_body, saveServices ser (with_reg (List.app a b) w))).
Proof.
  intros Hs.
  assert (Hseg : last_segment ("/api/services/" ++ sid) = sid)
    by exact (last_segment_after_slash "/api/services" sid Hs).
  unfold deleteService. rewrite Hseg.
  split; [intros H; rewrite H; reflexivity |].
  intros a s b Hreg Hid Ha.
  rewrite Hreg, existsb_app. cbn [existsb]. rewrite Hid, orb_true_r.
  rewrite remove_first_split by assumption. reflexivity.
Qed.

Definition two_world : World json :=
  mkWorld [sample_ping; sample_http "ok"] None true 0.

Lemma deleteService_by_url_witness :
  has_slash "70004321" = false /\
  deleteService doc_codec ("/api/services/" ++ "70004321") two_world
  = (mkResponse 200 success_body, saveServices doc_codec (with_reg [sample_ping] two_world)).
Proof.
  assert (H : has_slash "70004321" = false) by reflexivity.
  split; [exact H |].
  apply (proj2 (deleteService_by_url doc_codec two_world "70004321" H)
           [sample_ping] (sample_http "ok") []); [reflexivity | reflexivity |].
  constructor; [reflexivity | constructor].
Defined.

(** X8: [loadServices] leaves the device state as it was (registry
    included) when [/services.json] is missing or does not parse. *)
Theorem loadServices_unreadable {Bytes} (des : Bytes -> option json) (w : World Bytes) :
  (file w = None \/ exists bytes, file w = Some bytes /\ des bytes = None) ->
  loadServices des w = w.
Proof.
  intros [H | [bytes [H Hd]]]; unfold loadServices; rewrite H; [reflexivity |].
  rewrite Hd. reflexivity.
Qed.

Lemma loadServices_unreadable_witness :
  (file two_world = None \/ exists bytes, file two_world = Some bytes /\ Some bytes = @None json) /\
  loadServices Some two_world = two_world.
Proof.
  assert (H : file two_world = None \/
              exists bytes, file two_world = Some bytes /\ Some bytes = @None json)
    by (left; reflexivity).
  split; [exact H | exact (loadServices_unreadable Some two_world H)].
Defined.

Lemma load_loop_firstn (count : nat) (l : list json) :
  load_loop count l = List.map service_of_json (firstn (MAX_SERVICES - count) l).
Proof.
  revert count; induction l as [| obj l IH]; intros count.
  - rewrite firstn_nil. reflexivity.
  - cbn [load_loop]. destruct (MAX_SERVICES <=? count)%nat eqn:E.
    + apply Nat.leb_le in E. replace (MAX_SERVICES - count)%nat with 0%nat by lia.
      reflexivity.
    + apply Nat.leb_gt in E.
      replace (MAX_SERVICES - count)%nat with (S (MAX_SERVICES - S count)) by lia.
      rewrite IH. reflexivity.
Qed.

Lemma nth_error_firstn_some {A} (n i : nat) (l : list A) (x : A) :
  nth_error (firstn n l) i = Some x -> nth_error l i = Some x.
Proof.
  revert i l; induction n as [| n IH]; intros i l H; [destruct i; discriminate |].
  destruct l as [| y l]; [destruct i; discriminate |].
  destruct i; cbn in *; [exact H | apply IH, H].
Qed.

(** X9: a readable store replaces the registry by one record for each of
    the first 20 entries of its [services] array (none when there is no
    such array), in order, each with its status fields at their initial
    values.  An entry's integer [type], [port] or [checkInterval] that fits
    a C++ [int] is taken as is, and each of its string fields holding no
    NUL byte is copied as is.  Loading writes nothing. *)
Theorem loadServices_first_20 {Bytes} (des : Bytes -> option json) (w : World Bytes)
    (bytes : Bytes) (doc : json) :
  file w = Some bytes -> des bytes = Some doc ->
  let rs := reg (loadServices des w) in
  let es := array_elems (member doc "services") in
  List.length rs = Nat.min MAX_SERVICES (List.length es) /\
  List.Forall (fun s => isUp s = false /\ lastCheck s = 0 /\ lastUptime s = 0 /\
                        lastError s = "" /\ secondsSinceLastCheck s = -1) rs /\
  (forall i e s, nth_error es i = Some e -> nth_error rs i = Some s ->
     (forall z, member e "type" = JInt z -> in_int z = true -> type s = z) /\
     (forall z, member e "port" = JInt z -> in_int z = true -> port s = z) /\
     (forall z, member e "checkInterval" = JInt z -> in_int z = true -> checkInterval s = z) /\
     (forall str, member e "id" = JStr str -> c_str str = str -> id s = str) /\
     (forall str, member e "name" = JStr str -> c_str str = str -> name s = str) /\
     (forall str, member e "host" = JStr str -> c_str str = str -> host s = str) /\
     (forall str, member e "path" = JStr str -> c_str str = str -> path s = str) /\
     (forall str, member e "expectedResponse" = JStr str -> c_str str = str ->
                  expectedResponse s = str)) /\
  file (loadServices des w) = file w /\ writes (loadServices des w) = writes w.
Proof.
  intros Hf Hd rs es.
  assert (Hrs : rs = List.map service_of_json (firstn MAX_SERVICES es)).
  { subst rs es. unfold loadServices. rewrite Hf, Hd. cbn [reg with_reg].
    rewrite load_loop_firstn, Nat.sub_0_r. reflexivity. }
  split; [rewrite Hrs, length_map, length_firstn; reflexivity |].
  split; [rewrite Hrs; apply Forall_map, Forall_forall; intros x _; repeat split |].
  split.
  - intros i e s He Hs. rewrite Hrs, nth_error_map in Hs.
    destruct (nth_error (firstn MAX_SERVICES es) i) as [e' |] eqn:E; [| discriminate].
    injection Hs as <-. apply nth_error_firstn_some in E. rewrite He in E.
    injection E as <-. unfold service_of_json.
    cbn [type port checkInterval id name host path expectedResponse].
    repeat split; intros ? Hm Hz; rewrite Hm; cbn [as_int as_String]; try rewrite Hz;
      reflexivity.
  - unfold loadServices. rewrite Hf, Hd. cbn [file writes with_reg].
    split; [exact Hf | reflexivity].
Qed.

Definition store_21 : json :=
  JObj [("services", JArr (repeat (service_to_json sample_ping) 21))].

Definition stored_world : World json := mkWorld [] (Some store_21) true 0.

Lemma loadServices_first_20_witness :
  (file stored_world = Some store_21 /\ Some store_21 = Some store_21) /\
  List.length (reg (loadServices Some stored_world)) = 20%nat.
Proof.
  split; [split; reflexivity |].
  pose proof (loadServices_first_20 Some stored_world store_21 store_21 eq_refl eq_refl) as H.
  cbv zeta in H. rewrite (proj1 H). vm_compute. reflexivity.
Defined.

(** ** Creating a service *)

(** X10: a create that passes the capacity check, parses and names a known
    type answers 200 with the fresh id, appends one record at the end of
    the registry (the fresh id, the parsed type, the given host when it is
    a string holding no NUL byte, the status fields at their initial values) and leaves the earlier records
    alone; on a writable file system the new registry is written out, once. *)
Theorem createService_success {Bytes} (ser : json -> Bytes) (des : Bytes -> option json)
    (millis rnd : Z) (data : Bytes) (w : World Bytes) (doc : json) (t : Z) :
  (List.length (reg w) < MAX_SERVICES)%nat ->
  des data = Some doc ->
  parseServiceType (as_String (member doc "type")) = Some t ->
  let (resp, w') := createService ser des millis rnd data w in
  resp = mkResponse 200 (created_body (generateServiceId millis rnd)) /\
  (exists ns, reg w' = List.app (reg w) [ns] /\
     id ns = generateServiceId millis rnd /\ type ns = t /\
     (forall h, member doc "host" = JStr h -> c_str h = h -> host ns = h) /\
     isUp ns = false /\ lastCheck ns = 0 /\ lastUptime ns = 0 /\
     lastError ns = "" /\ secondsSinceLastCheck ns = -1) /\
  file w' = (if fs_writable w then Some (ser (services_doc (reg w'))) else file w) /\
  writes w' = (if fs_writable w then S (writes w) else writes w).
Proof.
  intros Hlen Hdes Htype. unfold createService.
  replace (MAX_SERVICES <=? List.length (reg w))%nat with false
    by (symmetry; apply Nat.leb_gt; exact Hlen).
  rewrite Hdes, Htype.
  split; [reflexivity |].
  rewrite reg_saveServices, writes_saveServices.
  split; [eexists; split; [reflexivity | repeat split] |].
  2:{ split; [| reflexivity].
      unfold saveServices; cbn [fs_writable with_reg]; destruct (fs_writable w); reflexivity. }
  intros h Hh _. unfold new_service; cbn [host]. rewrite Hh. reflexivity.
Qed.

Lemma createService_success_witness :
  ((List.length (reg one_world) < MAX_SERVICES)%nat /\
   Some (create_body "jellyfin" "10.0.0.7") = Some (create_body "jellyfin" "10.0.0.7") /\
   parseServiceType (as_String (member (create_body "jellyfin" "10.0.0.7") "type"))
     = Some TYPE_JELLYFIN) /\
  (let (resp, w') := createService doc_codec Some 5000 42
                       (create_body "jellyfin" "10.0.0.7") one_world in
   resp = mkResponse 200 (created_body (generateServiceId 5000 42)) /\
   (exists ns, reg w' = List.app (reg one_world) [ns] /\
      id ns = generateServiceId 5000 42 /\ type ns = TYPE_JELLYFIN /\
      (forall h, member (create_body "jellyfin" "10.0.0.7") "host" = JStr h -> c_str h = h ->
                 host ns = h) /\
      isUp ns = false /\ lastCheck ns = 0 /\ lastUptime ns = 0 /\
      lastError ns = "" /\ secondsSinceLastCheck ns = -1) /\
   file w' = (if fs_writable one_world then Some (doc_codec (services_doc (reg w')))
              else file one_world) /\
   writes w' = (if fs_writable one_world then S (writes one_world) else writes one_world)).
Proof.
  assert (H1 : (List.length (reg one_world) < MAX_SERVICES)%nat) by (vm_compute; lia).
  assert (H3 : parseServiceType (as_String (member (create_body "jellyfin" "10.0.0.7") "type"))
               = Some TYPE_JELLYFIN) by reflexivity.
  split; [split; [exact H1 | split; [reflexivity | exact H3]] |].
  exact (createService_success doc_codec Some 5000 42 (create_body "jellyfin" "10.0.0.7")
           one_world (create_body "jellyfin" "10.0.0.7") TYPE_JELLYFIN H1 eq_refl H3).
Defined.




(** X12: a body that parses but whose [type] is none of the four known
    names (a missing [type] included) is refused with 400 and changes
    nothing: no record, no write. *)
Theorem createService_invalid_type {Bytes} (ser : json -> Bytes) (des : Bytes -> option json)
    (millis rnd : Z) (data : Bytes) (w : World Bytes) (doc : json) :
  (List.length (reg w) < MAX_SERVICES)%nat ->
  des data = Some doc ->
  parseServiceType (as_String (member doc "type")) = None ->
  createService ser des millis rnd data w
  = (mkResponse 400 (error_body "Invalid service type"), w).
Proof.
  intros Hlen Hdes Htype. unfold createService.
  replace (MAX_SERVICES <=? List.length (reg w))%nat with false
    by (symmetry; apply Nat.leb_gt; exact Hlen).
  rewrite Hdes, Htype. reflexivity.
Qed.

Definition untyped_body : json := JObj [("name", JStr "nas"); ("host", JStr "10.0.0.2")].

Lemma createService_invalid_type_witness :
  ((List.length (reg one_world) < MAX_SERVICES)%nat /\
   Some untyped_body = Some untyped_body /\
   parseServiceType (as_String (member untyped_body "type")) = None) /\
  createService doc_codec Some 5000 42 untyped_body one_world
  = (mkResponse 400 (error_body "Invalid service type"), one_world).
Proof.
  assert (H1 : (List.length (reg one_world) < MAX_SERVICES)%nat) by (vm_compute; lia).
  assert (H3 : parseServiceType (as_String (member untyped_body "type")) = None)
    by reflexivity.
  split; [repeat split; assumption |].
  exact (createService_invalid_type doc_codec Some 5000 42 untyped_body one_world
           untyped_body H1 eq_refl H3).
Defined.

(** X13: the type names written to the listing and parsed by the create
    handler match: each of the four types is parsed back from its name,
    every string the parser accepts has the name of the type it gives as
    its C string (the [==] with a literal compares C strings), and any
    other type value is listed as [unknown]. *)
Theorem service_type_names :
  (forall t, 0 <= t <= 3 -> parseServiceType (getServiceTypeString t) = Some t) /\
  (forall str t, parseServiceType str = Some t -> getServiceTypeString t = c_str str) /\
  (forall t, (t < 0 \/ 3 < t) -> getServiceTypeString t = "unknown").
Proof.
  split; [| split].
  - intros t Ht. assert (E : t = 0 \/ t = 1 \/ t = 2 \/ t = 3) by lia.
    destruct E as [-> | [-> | [-> | ->]]]; reflexivity.
  - intros str t. unfold parseServiceType.
    rewrite (equals_cstr_literal str "home_assistant" eq_refl ltac:(discriminate)),
      (equals_cstr_literal str "jellyfin" eq_refl ltac:(discriminate)),
      (equals_cstr_literal str "http_get" eq_refl ltac:(discriminate)),
      (equals_cstr_literal str "ping" eq_refl ltac:(discriminate)).
    destruct (String.eqb (c_str str) "home_assistant") eqn:E1;
      [intros H; injection H as <-; apply String.eqb_eq in E1; rewrite E1; reflexivity |].
    destruct (String.eqb (c_str str) "jellyfin") eqn:E2;
      [intros H; injection H as <-; apply String.eqb_eq in E2; rewrite E2; reflexivity |].
    destruct (String.eqb (c_str str) "http_get") eqn:E3;
      [intros H; injection H as <-; apply String.eqb_eq in E3; rewrite E3; reflexivity |].
    destruct (String.eqb (c_str str) "ping") eqn:E4;
      [intros H; injection H as <-; apply String.eqb_eq in E4; rewrite E4; reflexivity |].
    discriminate.
  - intros t Ht. unfold getServiceTypeString, TYPE_HOME_ASSISTANT, TYPE_JELLYFIN,
      TYPE_HTTP_GET, TYPE_PING.
    replace (t =? 0) with false by (symmetry; apply Z.eqb_neq; lia).
    replace (t =? 1) with false by (symmetry; apply Z.eqb_neq; lia).
    replace (t =? 2) with false by (symmetry; apply Z.eqb_neq; lia).
    replace (t =? 3) with false by (symmetry; apply Z.eqb_neq; lia).
    reflexivity.
Qed.

Lemma has_slash_digits (d : Decimal.uint) : has_slash (NilEmpty.string_of_uint d) = false.
Proof. induction d; cbn; auto. Qed.

Lemma has_slash_string_of_N (n : N) : has_slash (string_of_N n) = false.
Proof.
  unfold string_of_N, NilZero.string_of_uint.
  destruct (N.to_uint n); try reflexivity; apply has_slash_digits.
Qed.

Lemma has_slash_generateServiceId (millis rnd : Z) :
  has_slash (generateServiceId millis rnd) = false.
Proof.
  unfold generateServiceId, String_of_Z. rewrite has_slash_app, has_slash_string_of_N.
  destruct (rnd <? 0); cbn [append has_slash orb]; apply has_slash_string_of_N.
Qed.

(** X14: deleting, by its URL, the record a create has just added (when no
    earlier record had that id) answers 200 and gives back the registry as
    it was before the create; on a writable file system that registry is
    what is stored. *)
Theorem create_then_delete {Bytes} (ser : json -> Bytes) (des : Bytes -> option json)
    (millis rnd : Z) (data : Bytes) (w : World Bytes) (doc : json) (t : Z) :
  (List.length (reg w) < MAX_SERVICES)%nat ->
  des data = Some doc ->
  parseServiceType (as_String (member doc "type")) = Some t ->
  existsb (fun s => String_eq (id s) (generateServiceId millis rnd)) (reg w) = false ->
  let w1 := snd (createService ser des millis rnd data w) in
  let (resp, w2) := deleteService ser ("/api/services/" ++ generateServiceId millis rnd) w1 in
  resp = mkResponse 200 success_body /\ reg w2 = reg w /\
  (fs_writable w = true -> file w2 = Some (ser (services_doc (reg w)))).
Proof.
  intros Hlen Hdes Htype Hfresh w1.
  set (sid := generateServiceId millis rnd) in *.
  assert (Hw1 : reg w1 = List.app (reg w) [new_service sid t doc] /\
                fs_writable w1 = fs_writable w).
  { subst w1. unfold createService.
    replace (MAX_SERVICES <=? List.length (reg w))%nat with false
      by (symmetry; apply Nat.leb_gt; exact Hlen).
    rewrite Hdes, Htype. cbn [snd]. rewrite reg_saveServices.
    split; [reflexivity |]. unfold saveServices, with_reg; cbn.
    destruct (fs_writable w); reflexivity. }
  destruct Hw1 as [Hreg Hwr].
  assert (Hseg : last_segment ("/api/services/" ++ sid) = sid)
    by exact (last_segment_after_slash "/api/services" sid
                (has_slash_generateServiceId millis rnd)).
  unfold deleteService. rewrite Hseg, Hreg, existsb_app, Hfresh.
  cbn [existsb orb]. replace (String_eq (id (new_service sid t doc)) sid) with true
    by (symmetry; apply String_eq_refl).
  rewrite remove_first_split; [| | apply String_eq_refl].
  2:{ apply Forall_forall; intros x Hx. destruct (String_eq (id x) sid) eqn:Heq; [| reflexivity].
      assert (Hin : existsb (fun s => String_eq (id s) sid) (reg w) = true)
        by (apply existsb_exists; exists x; split; [exact Hx | exact Heq]).
      congruence. }
  rewrite app_nil_r.
  split; [reflexivity |]. rewrite reg_saveServices. split; [reflexivity |].
  intros Hw. unfold saveServices. cbn [fs_writable with_reg]. rewrite Hwr, Hw. reflexivity.
Qed.

Lemma create_then_delete_witness :
  ((List.length (reg one_world) < MAX_SERVICES)%nat /\
   Some (create_body "jellyfin" "10.0.0.7") = Some (create_body "jellyfin" "10.0.0.7") /\
   parseServiceType (as_String (member (create_body "jellyfin" "10.0.0.7") "type"))
     = Some TYPE_JELLYFIN /\
   existsb (fun s => String_eq (id s) (generateServiceId 5000 42)) (reg one_world) = false) /\
  reg (snd (deleteService doc_codec ("/api/services/" ++ generateServiceId 5000 42)
             (snd (createService doc_codec Some 5000 42
                     (create_body "jellyfin" "10.0.0.7") one_world))))
  = reg one_world.
Proof.
  assert (H1 : (List.length (reg one_world) < MAX_SERVICES)%nat) by (vm_compute; lia).
  assert (H3 : parseServiceType (as_String (member (create_body "jellyfin" "10.0.0.7") "type"))
               = Some TYPE_JELLYFIN) by reflexivity.
  assert (H4 : existsb (fun s => String_eq (id s) (generateServiceId 5000 42)) (reg one_world)
               = false) by reflexivity.
  split; [repeat split; assumption |].
  pose proof (create_then_delete doc_codec Some 5000 42 (create_body "jellyfin" "10.0.0.7")
                one_world (create_body "jellyfin" "10.0.0.7") TYPE_JELLYFIN
                H1 eq_refl H3 H4) as H.
  cbv zeta in H.
  destruct (deleteService doc_codec ("/api/services/" ++ generateServiceId 5000 42)
              (snd (createService doc_codec Some 5000 42
                      (create_body "jellyfin" "10.0.0.7") one_world))) as [resp w2].
  exact (proj1 (proj2 H)).
Defined.

(** ** Saving a reloaded registry *)

Lemma reg_reload {Bytes} (ser : json -> Bytes) (des : Bytes -> option json)
    (Hcodec : forall d, des (ser d) = Some d) (w : World Bytes) :
  fs_writable w = true ->
  (List.length (reg w) <= MAX_SERVICES)%nat ->
  Forall int_fields_ok (reg w) ->
  reg (loadServices des (saveServices ser w)) = List.map cold_start (reg w).
Proof.
  intros Hw Hlen Hok.
  unfold loadServices, saveServices. rewrite Hw. cbn [file reg].
  rewrite Hcodec. cbn [with_reg reg].
  change (member (services_doc (reg w)) "services")
    with (JArr (List.map service_to_json (reg w))).
  cbn [array_elems].
  rewrite load_loop_map by (rewrite length_map; lia).
  rewrite map_map. apply map_ext_Forall.
  eapply Forall_impl; [| exact Hok]. intros s Hs. apply service_of_to_json, Hs.
Qed.


Lemma fs_writable_loadServices {Bytes} (des : Bytes -> option json) (w : World Bytes) :
  fs_writable (loadServices des w) = fs_writable w.
Proof.
  unfold loadServices. destruct (file w); [destruct (des b) |]; reflexivity.
Qed.

Lemma services_doc_cold_start (rs : list Service) :
  services_doc (List.map cold_start rs) = services_doc rs.
Proof. unfold services_doc. rewrite map_map. reflexivity. Qed.

(** X15: saving is stable across a reboot: when the stored file is read
    back (a codec that reads its own output, at most 20 records whose
    integer fields fit a C++ [int]), the next save writes exactly the same
    document again. *)
Theorem save_reload_save {Bytes} (ser : json -> Bytes) (des : Bytes -> option json)
    (Hcodec : forall d, des (ser d) = Some d) (w : World Bytes) :
  fs_writable w = true ->
  (List.length (reg w) <= MAX_SERVICES)%nat ->
  Forall int_fields_ok (reg w) ->
  file (saveServices ser (loadServices des (saveServices ser w)))
  = file (saveServices ser w).
Proof.
  intros Hw Hlen Hok.
  pose proof (reg_reload ser des Hcodec w Hw Hlen Hok) as Hreg.
  assert (Hw' : fs_writable (loadServices des (saveServices ser w)) = true).
  { rewrite fs_writable_loadServices. unfold saveServices. rewrite Hw. reflexivity. }
  unfold saveServices at 1. rewrite Hw'. cbn [file]. rewrite Hreg, services_doc_cold_start.
  unfold saveServices. rewrite Hw. reflexivity.
Qed.

Lemma save_reload_save_witness :
  (fs_writable one_world = true /\
   (List.length (reg one_world) <= MAX_SERVICES)%nat /\
   Forall int_fields_ok (reg one_world)) /\
  file (saveServices doc_codec (loadServices Some (saveServices doc_codec one_world)))
  = file (saveServices doc_codec one_world).
Proof.
  assert (H2 : (List.length (reg one_world) <= MAX_SERVICES)%nat) by (vm_compute; lia).
  assert (H3 : Forall int_fields_ok (reg one_world))
    by (repeat constructor; reflexivity).
  split; [repeat split; assumption |].
  exact (save_reload_save doc_codec Some (fun d => eq_refl) one_world eq_refl H2 H3).
Defined.

(** ** The listing handler *)

(** X16: [GET /api/services] lists every record in registry order.  For the
    record at position [i] it stores and reports [secondsSinceLastCheck]:
    -1 for a record never checked ([lastCheck] 0), otherwise the wrapped
    [millis() - lastCheck] in whole seconds, which lies in
    [0, 4294967]; no other field of the record changes, and the entry
    carries the record's id, type name, [isUp] and [lastError]. *)
Theorem getServices_entry (now : Z) (rs : list Service) (i : nat) (s : Service) :
  nth_error rs i = Some s ->
  let v := list_seconds now s in
  List.length (array_elems (member (snd (getServices now rs)) "services")) = List.length rs /\
  nth_error (fst (getServices now rs)) i = Some (set_secondsSinceLastCheck v s) /\
  (lastCheck s <= 0 -> v = -1) /\
  (0 < lastCheck s -> v = ulong (now - lastCheck s) / 1000 /\ 0 <= v <= 4294967) /\
  exists e, nth_error (array_elems (member (snd (getServices now rs)) "services")) i = Some e /\
    member e "id" = JStr (id s) /\
    member e "type" = JStr (getServiceTypeString (type s)) /\
    member e "isUp" = JBool (isUp s) /\
    member e "secondsSinceLastCheck" = JInt v /\
    member e "lastError" = JStr (lastError s).
Proof.
  intros Hi v.
  change (member (snd (getServices now rs)) "services")
    with (JArr (List.map service_entry (List.map (list_refresh now) rs))).
  cbn [array_elems fst getServices].
  split; [rewrite !length_map; reflexivity |].
  split; [rewrite nth_error_map, Hi; reflexivity |].
  split; [intros H; unfold v, list_seconds; replace (0 <? lastCheck s) with false
            by (symmetry; apply Z.ltb_ge; exact H); reflexivity |].
  split.
  - intros H. unfold v, list_seconds.
    replace (0 <? lastCheck s) with true by (symmetry; apply Z.ltb_lt; exact H).
    split; [reflexivity |].
    assert (Hr : 0 <= ulong (now - lastCheck s) <= 4294967295)
      by (unfold ulong, ULONG_MOD; pose proof (Z.mod_pos_bound (now - lastCheck s) (2 ^ 32) eq_refl);
          change (2 ^ 32) with 4294967296 in *; lia).
    split; [apply Z.div_pos; lia |].
    change 4294967 with (4294967295 / 1000). apply Z.div_le_mono; lia.
  - exists (service_entry (list_refresh now s)).
    split; [rewrite !nth_error_map, Hi; reflexivity |].
    repeat split.
Qed.

Lemma getServices_entry_witness :
  nth_error [sample_ping; set_lastCheck 2000 (sample_http "ok")] 1 =
    Some (set_lastCheck 2000 (sample_http "ok")) /\
  list_seconds 65000 (set_lastCheck 2000 (sample_http "ok")) = 63.
Proof.
  assert (H : nth_error [sample_ping; set_lastCheck 2000 (sample_http "ok")] 1 =
              Some (set_lastCheck 2000 (sample_http "ok"))) by reflexivity.
  split; [exact H |].
  pose proof (getServices_entry 65000 [sample_ping; set_lastCheck 2000 (sample_http "ok")]
                1 (set_lastCheck 2000 (sample_http "ok")) H) as G.
  cbv zeta in G.
  destruct G as [_ [_ [_ [G _]]]].
  rewrite (proj1 (G (eq_refl : 0 < 2000))). reflexivity.
Defined.
